(** * yeoda: the filename based data cube (src/yeoda/yeoda.py)

    A shallow embedding of the class [eoDataCube] and of the module functions
    [match_dimension] and [merge_datacubes].  Python values are an inductive
    type, exceptions are an error result, a pandas data frame is an
    insertion-ordered list of named columns, and a method is a function from
    the receiver's state to the value it returns together with the receiver's
    state afterwards. *)

From Stdlib Require Import String Ascii List ZArith Bool Arith Lia Sorted Permutation.
Import ListNotations.
Local Open Scope string_scope.
Local Open Scope list_scope.

(** ** Python values, exceptions and results *)

(** A pandas Timestamp at the resolution the code looks at: the [year]
    attribute and the chronological order used by [min], [max] and the
    comparison operators. *)
Record Timestamp := mkTimestamp { year : Z; month : Z; day : Z }.

(** The values a cell of the inventory or a filter bound can hold. *)
Inductive Value :=
| VNone
| VInt (n : Z)
| VStr (s : string)
| VTime (t : Timestamp)
| VGeom (polygon : nat).

(** The exceptions the modelled code can raise.  [Exception_length] is the
    [Exception] raised on line 627 of yeoda.py; its message formats the two
    lengths it carries. *)
Inductive Exc :=
| SyntaxError (text : string)
| TypeError (msg : string)
| KeyError (key : string)
| IndexError (msg : string)
| ValueError (msg : string)
| AttributeError (attr : string)
| Exception_length (len_value len_expression : nat).

Inductive Res (A : Type) :=
| Ok (a : A)
| Raise (e : Exc).
Arguments Ok {A} a.
Arguments Raise {A} e.

Definition bind {A B : Type} (c : Res A) (k : A -> Res B) : Res B :=
  match c with
  | Ok a => k a
  | Raise e => Raise e
  end.

Declare Scope res_scope.
Delimit Scope res_scope with res.
Notation "x <- c ;; k" := (bind c (fun x => k))
  (at level 61, c at next level, right associativity) : res_scope.
Notation "' p <- c ;; k" := (bind c (fun p => k))
  (at level 61, p pattern, c at next level, right associativity) : res_scope.
Local Open Scope res_scope.

(** A list comprehension or [for] loop whose body can raise. *)
Fixpoint mapM {A B : Type} (f : A -> Res B) (l : list A) : Res (list B) :=
  match l with
  | [] => Ok []
  | a :: r => b <- f a ;; bs <- mapM f r ;; Ok (b :: bs)
  end.

(** Truth value of an optional list: [None] and the empty list are false. *)
Definition truthy {A : Type} (o : option (list A)) : bool :=
  match o with
  | Some (_ :: _) => true
  | _ => false
  end.

Definition mem (s : string) (l : list string) : bool :=
  existsb (String.eqb s) l.

(** ** os.path *)

Module os_path.

Definition is_sep (c : ascii) : bool := Ascii.eqb c "/"%char.
Definition is_dot (c : ascii) : bool := Ascii.eqb c "."%char.

(** The characters after the last separator. *)
Fixpoint tail_after_sep (p cur : list ascii) : list ascii :=
  match p with
  | [] => cur
  | c :: r => if is_sep c then tail_after_sep r [] else tail_after_sep r (cur ++ [c])
  end.

Definition basename (p : string) : string :=
  string_of_list_ascii (tail_after_sep (list_ascii_of_string p) []).

(** The suffix that starts at the last dot, if there is a dot. *)
Fixpoint from_last_dot (b : list ascii) : option (list ascii) :=
  match b with
  | [] => None
  | c :: r =>
      match from_last_dot r with
      | Some s => Some s
      | None => if is_dot c then Some (c :: r) else None
      end
  end.

(** [os.path.splitext(p)[1]]: the extension starts at the last dot of the
    last path component, unless only dots come before it. *)
Definition splitext_ext (p : string) : string :=
  let b := tail_after_sep (list_ascii_of_string p) [] in
  match from_last_dot b with
  | None => ""
  | Some s =>
      let root := firstn (length b - length s) b in
      if existsb (fun c => negb (is_dot c)) root
      then string_of_list_ascii s else ""
  end.

End os_path.

(** ** pandas: the data frame *)

(** A frame is its columns in order, each a name with one cell per row.  The
    index is positional: only its length is looked at by the code. *)
Definition DataFrame := list (string * list Value).

Module pd.

Definition keys (df : DataFrame) : list string := map fst df.

Definition len (df : DataFrame) : nat :=
  match df with
  | [] => 0
  | (_, c) :: _ => length c
  end.

(** [df[name]] *)
Fixpoint getitem (df : DataFrame) (name : string) : Res (list Value) :=
  match df with
  | [] => Raise (KeyError name)
  | (k, c) :: r => if String.eqb k name then Ok c else getitem r name
  end.

Fixpoint mask_list {A : Type} (l : list A) (m : list bool) : list A :=
  match l, m with
  | a :: l', b :: m' => if b then a :: mask_list l' m' else mask_list l' m'
  | _, _ => []
  end.

(** [df[mask]] with a list of booleans, one per row. *)
Definition select (df : DataFrame) (m : list bool) : Res DataFrame :=
  if Nat.eqb (length m) (len df)
  then Ok (map (fun kc => (fst kc, mask_list (snd kc) m)) df)
  else Raise (ValueError "Item wrong length").

(** [df.assign] with one keyword, the column name: an existing column is replaced where it
    stands, a new one is appended. *)
Fixpoint assign (df : DataFrame) (name : string) (col : list Value) : DataFrame :=
  match df with
  | [] => [(name, col)]
  | (k, c) :: r =>
      if String.eqb k name then (k, col) :: r else (k, c) :: assign r name col
  end.

(** [GeoSeries(values, index=df.index)] *)
Definition GeoSeries (values : list Value) (df : DataFrame) : Res (list Value) :=
  if Nat.eqb (length values) (len df) then Ok values
  else Raise (ValueError "Length of values does not match length of index").

Fixpoint lookup (m : list (string * string)) (k : string) : option string :=
  match m with
  | [] => None
  | (a, b) :: r => if String.eqb a k then Some b else lookup r k
  end.

(** [df.rename(columns=mapping)] *)
Definition rename (df : DataFrame) (mapping : list (string * string)) : DataFrame :=
  map (fun kc => (match lookup mapping (fst kc) with
                  | Some k' => k'
                  | None => fst kc
                  end, snd kc)) df.

(** A column of the dictionary handed to the frame constructor: a list, or
    the scalar [None]. *)
Inductive Col :=
| Values (l : list Value)
| NoneCol.

Fixpoint list_lengths (data : list (string * Col)) : list nat :=
  match data with
  | [] => []
  | (_, Values l) :: r => length l :: list_lengths r
  | (_, NoneCol) :: r => list_lengths r
  end.

(** [GeoDataFrame(data, columns=list(data.keys()))]: the lists must agree in
    length, and a scalar is repeated over that length. *)
Definition GeoDataFrame (data : list (string * Col)) : Res DataFrame :=
  match list_lengths data with
  | [] => Raise (ValueError "If using all scalar values, you must pass an index")
  | n :: ns =>
      if forallb (Nat.eqb n) ns
      then Ok (map (fun kc => (fst kc, match snd kc with
                                       | Values l => l
                                       | NoneCol => repeat VNone n
                                       end)) data)
      else Raise (ValueError "All arrays must be of the same length")
  end.

(** Column names of several frames, each once, in first-seen order. *)
Fixpoint union_keys (seen : list string) (ks : list string) : list string :=
  match ks with
  | [] => seen
  | k :: r => if mem k seen then union_keys seen r else union_keys (seen ++ [k]) r
  end.

Definition column_or_null (df : DataFrame) (k : string) : list Value :=
  match getitem df k with
  | Ok c => c
  | Raise _ => repeat VNone (len df)
  end.

(** [pd.concat(frames, ignore_index=True)] *)
Definition concat (frames : list DataFrame) : Res DataFrame :=
  match frames with
  | [] => Raise (ValueError "No objects to concatenate")
  | _ :: _ =>
      let ks := union_keys [] (flat_map keys frames) in
      Ok (map (fun k => (k, flat_map (fun df => column_or_null df k) frames)) ks)
  end.

(** [pd.unique(values)]: each value once, in order of first appearance. *)
Definition value_eqb (a b : Value) : bool :=
  match a, b with
  | VNone, VNone => true
  | VInt x, VInt y => Z.eqb x y
  | VStr x, VStr y => String.eqb x y
  | VTime x, VTime y =>
      Z.eqb (year x) (year y) && Z.eqb (month x) (month y) && Z.eqb (day x) (day y)
  | VGeom x, VGeom y => Nat.eqb x y
  | _, _ => false
  end.

Fixpoint unique_from (seen : list Value) (l : list Value) : list Value :=
  match l with
  | [] => seen
  | v :: r =>
      if existsb (value_eqb v) seen then unique_from seen r
      else unique_from (seen ++ [v]) r
  end.

Definition unique (l : list Value) : list Value := unique_from [] l.

End pd.

(** ** The collaborators *)

(** [smart_filename.fields.items()]: the translated parts of a file name, in
    order. *)
Definition Fields := list (string * Value).

(** [create_smart_filename]: translates a base name, or raises. *)
Definition Translator := string -> Res Fields.

(** The grid is opaque to the class, which only tests its presence. *)
Definition Grid := nat.

(** The folder tree, of which the class reads [file_register]. *)
Record SmartTree := mkSmartTree { file_register : list string }.

(** What the class uses of a data set opened by [GeoTiffFile] or [NcFile]:
    the boundary polygon that [GdalImage] and [extent2polygon] derive from it,
    and [get_metadata()]. *)
Record Dataset := mkDataset {
  boundary : Value;
  get_metadata : list (string * Value)
}.

(** ** The class eoDataCube *)

Record eoDataCube := mkCube {
  dir_tree : option SmartTree;
  smart_filename_creator : option Translator;
  history : list string;
  filepaths : option (list string);
  dimensions : option (list string);
  inventory : option DataFrame;
  grid : option Grid
}.

Definition set_inventory (self : eoDataCube) (inv : option DataFrame) : eoDataCube :=
  mkCube (dir_tree self) (smart_filename_creator self) (history self)
         (filepaths self) (dimensions self) inv (grid self).

Definition set_dimensions (self : eoDataCube) (dims : option (list string)) : eoDataCube :=
  mkCube (dir_tree self) (smart_filename_creator self) (history self)
         (filepaths self) dims (inventory self) (grid self).

(** What a method hands back: the receiver itself, a new cube, a list of new
    cubes, or [None]. *)
Inductive Returned :=
| RetSelf
| RetNew (dc : eoDataCube)
| RetList (dcs : list eoDataCube)
| RetNone.

(** [l.remove(x)]: drops the first occurrence. *)
Fixpoint remove_first (x : string) (l : list string) : list string :=
  match l with
  | [] => []
  | y :: r => if String.eqb y x then r else y :: remove_first x r
  end.

(** [l.index(x)] *)
Fixpoint index_of (x : string) (l : list string) : option nat :=
  match l with
  | [] => None
  | y :: r => if String.eqb y x then Some 0 else option_map S (index_of x r)
  end.

(** [l[idx] = x] *)
Fixpoint set_nth (idx : nat) (x : string) (l : list string) : list string :=
  match l, idx with
  | [], _ => []
  | _ :: r, 0 => x :: r
  | y :: r, S i => y :: set_nth i x r
  end.

(** *** __inventory_from_filepaths *)

(** [if key not in inventory.keys(): inventory[key] = []] followed by
    [inventory[key].append(value)]; a new key goes last. *)
Fixpoint setdefault_append (key : string) (value : Value)
         (inv : list (string * list Value)) : list (string * list Value) :=
  match inv with
  | [] => [(key, [value])]
  | (k, c) :: r =>
      if String.eqb k key then (k, c ++ [value]) :: r
      else (k, c) :: setdefault_append key value r
  end.

(** The loop over [smart_filename.fields.items()] (lines 559-568). *)
Fixpoint add_fields (self_dimensions : option (list string)) (fields : Fields)
         (inv : list (string * list Value)) : list (string * list Value) :=
  match fields with
  | [] => inv
  | (key, value) :: rest =>
      let inv' :=
        if truthy self_dimensions then
          if mem key (match self_dimensions with Some d => d | None => [] end)
          then setdefault_append key value inv
          else inv
        else setdefault_append key value inv in
      add_fields self_dimensions rest inv'
  end.

(** The loop over [self.filepaths] (lines 551-568): a file whose translation
    raises goes to [untrans_filepaths], the others fill the columns. *)
Fixpoint translate_filepaths (create_smart_filename : Translator)
         (self_dimensions : option (list string)) (fps : list string)
         (inv : list (string * list Value)) (untrans_filepaths : list string)
  : list (string * list Value) * list string :=
  match fps with
  | [] => (inv, untrans_filepaths)
  | filepath :: rest =>
      match create_smart_filename (os_path.basename filepath) with
      | Raise _ =>
          translate_filepaths create_smart_filename self_dimensions rest inv
                              (untrans_filepaths ++ [filepath])
      | Ok fields =>
          translate_filepaths create_smart_filename self_dimensions rest
            (add_fields self_dimensions fields
                        (setdefault_append "filepath" (VStr filepath) inv))
            untrans_filepaths
      end
  end.

(** The inner loop over [inventory.keys()] for one untranslated file (lines
    573-577): the file path is appended, every other column becomes [None]. *)
Fixpoint add_untranslated (untrans_filepath : string) (inv : list (string * pd.Col))
  : Res (list (string * pd.Col)) :=
  match inv with
  | [] => Ok []
  | (col, c) :: r =>
      c' <- (if String.eqb col "filepath" then
               match c with
               | pd.Values l => Ok (pd.Values (l ++ [VStr untrans_filepath]))
               | pd.NoneCol => Raise (AttributeError "append")
               end
             else Ok pd.NoneCol) ;;
      r' <- add_untranslated untrans_filepath r ;;
      Ok ((col, c') :: r')
  end.

Fixpoint add_all_untranslated (untrans_filepaths : list string)
         (inv : list (string * pd.Col)) : Res (list (string * pd.Col)) :=
  match untrans_filepaths with
  | [] => Ok inv
  | u :: rest => inv' <- add_untranslated u inv ;; add_all_untranslated rest inv'
  end.

(** Returns the new [self.dimensions] and [self.inventory]; both are left as
    they were when [self.filepaths] is empty or [None]. *)
Definition _eoDataCube__inventory_from_filepaths
           (self_filepaths : option (list string))
           (self_dimensions : option (list string))
           (create_smart_filename : option Translator)
  : Res (option (list string) * option DataFrame) :=
  let inv0 : list (string * list Value) := [("filepath", [])] in
  if truthy self_filepaths then
    let fps := match self_filepaths with Some l => l | None => [] end in
    let '(inv1, untrans_filepaths) :=
      match create_smart_filename with
      | Some create => translate_filepaths create self_dimensions fps inv0 []
      | None => (inv0, fps)
      end in
    inv2 <- add_all_untranslated untrans_filepaths
              (map (fun kc => (fst kc, pd.Values (snd kc))) inv1) ;;
    let dims := map fst inv2 in
    df <- pd.GeoDataFrame inv2 ;;
    Ok (Some (remove_first "filepath" dims), Some df)
  else Ok (self_dimensions, None).

(** The variables the strings handed to [eval] can name (lines 623 and 625). *)
Record EvalEnv := mkEnv {
  env_inventory : option DataFrame;
  env_name : string;
  env_expression : list string;
  env_value : list Value
}.

(** An element of [values] or of [expressions]: one item, or a tuple or list
    of items. *)
Inductive Operand (A : Type) :=
| Single (a : A)
| Sequence (l : list A).
Arguments Single {A} a.
Arguments Sequence {A} l.

(** [if not isinstance(x, (tuple, list)): x = [x]] *)
Definition as_list {A : Type} (x : Operand A) : list A :=
  match x with
  | Single a => [a]
  | Sequence l => l
  end.

Definition range_cmd : string :=
  "inventory[(inventory[name] expression[0] value[0]) & (inventory[name] expression[1] value[1])]".
Definition exact_cmd : string :=
  "inventory[inventory[name] expression[0] value[0]]".

Section Cube.

(** The data set behind a file of a recognised type ([GeoTiffFile(f).src],
    [NcFile(f).src]): it can raise, and it can be falsy ([None]). *)
Variable open_src : string -> string -> Res (option Dataset).

(** Python's [eval] on a command string, in the scope of
    [__filter_by_dimension]. *)
Variable py_eval : string -> EvalEnv -> Res (option DataFrame).

(** pandas' [left.merge(right, on=name)]. *)
Variable df_merge : DataFrame -> DataFrame -> option string -> Res DataFrame.

(** *** __file_type, __geometry_from_file *)

Definition _eoDataCube__file_type (filepath : string) : option string :=
  let ext := os_path.splitext_ext filepath in
  if mem ext [".tif"; ".tiff"] then Some "GeoTIFF"
  else if mem ext [".nc"] then Some "NetCDF"
  else None.

Definition _eoDataCube__geometry_from_file (filepath : string) : Res Value :=
  ds <- match _eoDataCube__file_type filepath with
        | Some file_type => open_src file_type filepath
        | None => Ok None
        end ;;
  match ds with
  | Some d => Ok (boundary d)
  | None => Ok VNone
  end.

(** *** add_dimension, the frame it computes (line 140) *)

Definition add_dimension_frame (inv : DataFrame) (name : string)
           (values : list Value) : Res DataFrame :=
  col <- pd.GeoSeries values inv ;;
  Ok (pd.assign inv name col).

(** *** __init__ *)

(** The constructor, returning the new object.  [elif inventory:] on line 56
    asks a data frame for its truth value, which pandas refuses with a
    ValueError.  The last step is [self.add_dimension('geometry', geometries,
    in_place=True)] with the inventory present: the frame of line 140 is
    computed and assigned to [self.inventory]. *)
Definition __init__ (filepaths0 : option (list string)) (grid0 : option Grid)
           (dir_tree0 : option SmartTree)
           (smart_filename_creator0 : option Translator)
           (dimensions0 : option (list string))
           (inventory0 : option DataFrame) : Res eoDataCube :=
  self_filepaths <-
    (if truthy filepaths0 then Ok filepaths0
     else match dir_tree0 with
          | Some t => Ok (Some (file_register t))
          | None =>
              match inventory0 with
              | Some _ => Raise (ValueError "The truth value of a DataFrame is ambiguous")
              | None => Ok None
              end
          end) ;;
  let self_dimensions :=
    if truthy dimensions0 then dimensions0
    else match inventory0 with
         | Some df =>
             let d := pd.keys df in
             Some (if mem "filepath" d then remove_first "filepath" d else d)
         | None => None
         end in
  '(self_dimensions, self_inventory) <-
    match inventory0 with
    | Some df => Ok (self_dimensions, Some df)
    | None =>
        _eoDataCube__inventory_from_filepaths self_filepaths self_dimensions
                                              smart_filename_creator0
    end ;;
  let self := mkCube dir_tree0 smart_filename_creator0 [] self_filepaths
                     self_dimensions self_inventory None in
  match grid0 with
  | Some g =>
      Ok (mkCube dir_tree0 smart_filename_creator0 [] self_filepaths
                 self_dimensions self_inventory (Some g))
  | None =>
      match self_inventory with
      | Some df =>
          if mem "geometry" (pd.keys df) then Ok self
          else
            geometries <-
              match self_filepaths with
              | Some fps => mapM _eoDataCube__geometry_from_file fps
              | None => Raise (TypeError "'NoneType' object is not iterable")
              end ;;
            df' <- add_dimension_frame df "geometry" geometries ;;
            Ok (set_inventory self (Some df'))
      | None => Ok self
      end
  end.

Definition from_inventory (inventory0 : option DataFrame) (grid0 : option Grid)
           (dir_tree0 : option SmartTree) : Res eoDataCube :=
  __init__ None grid0 dir_tree0 None None inventory0.

(** *** __assign_inventory *)

(** Returns what the method returns and the receiver afterwards. *)
Definition _eoDataCube__assign_inventory (self : eoDataCube)
           (inventory0 : option DataFrame) (in_place : bool)
  : Res (Returned * eoDataCube) :=
  if in_place then Ok (RetSelf, set_inventory self inventory0)
  else
    dc <- from_inventory inventory0 (grid self) (dir_tree self) ;;
    Ok (RetNew dc, self).

(** *** rename_dimensions *)

(** The loop of lines 106-112.  [if self.inventory:] asks the frame for its
    truth value, which raises when there is a frame. *)
Fixpoint rename_loop (self_inventory : option DataFrame)
         (dimensions_map : list (string * string)) (names : list string)
         (dims : option (list string)) (inv : option DataFrame)
  : Res (option (list string) * option DataFrame) :=
  match names with
  | [] => Ok (dims, inv)
  | dimension_name :: rest =>
      dims' <-
        match dims with
        | Some (d :: ds) =>
            match index_of dimension_name (d :: ds) with
            | Some idx =>
                match pd.lookup dimensions_map dimension_name with
                | Some new_name => Ok (Some (set_nth idx new_name (d :: ds)))
                | None => Raise (KeyError dimension_name)
                end
            | None => Raise (ValueError "x is not in list")
            end
        | _ => Ok dims
        end ;;
      inv' <-
        match self_inventory with
        | Some _ => Raise (ValueError "The truth value of a DataFrame is ambiguous")
        | None => Ok inv
        end ;;
      rename_loop self_inventory dimensions_map rest dims' inv'
  end.

Definition rename_dimensions (self : eoDataCube)
           (dimensions_map : list (string * string)) (in_place : bool)
  : Res (Returned * eoDataCube) :=
  '(dims, inv) <- rename_loop (inventory self) dimensions_map
                    (map fst dimensions_map) (dimensions self) (inventory self) ;;
  let self' := if in_place then set_dimensions self dims else self in
  _eoDataCube__assign_inventory self' inv in_place.

(** *** add_dimension *)

Definition add_dimension (self : eoDataCube) (name : string)
           (values : list Value) (in_place : bool) : Res (Returned * eoDataCube) :=
  match inventory self with
  | Some df =>
      df' <- add_dimension_frame df name values ;;
      _eoDataCube__assign_inventory self (Some df') in_place
  | None => Ok (RetNone, self)
  end.

(** *** filter_by_metadata *)

Fixpoint md_lookup (m : list (string * Value)) (k : string) : option Value :=
  match m with
  | [] => None
  | (a, b) :: r => if String.eqb a k then Some b else md_lookup r k
  end.

(** The body of the loop of lines 195-216 for one file. *)
Definition metadata_select (metadata : list (string * Value)) (cell : Value)
  : Res bool :=
  match cell with
  | VStr filepath =>
      ds <- match _eoDataCube__file_type filepath with
            | Some file_type => open_src file_type filepath
            | None => Ok None
            end ;;
      match ds with
      | Some d =>
          Ok (forallb (fun kv => match md_lookup (get_metadata d) (fst kv) with
                                 | Some v => pd.value_eqb v (snd kv)
                                 | None => false
                                 end) metadata)
      | None => Ok false
      end
  | _ => Raise (TypeError "expected str, bytes or os.PathLike object")
  end.

(** The flag [in_place] is a parameter of the method and is not used by its
    body: line 219 calls [__assign_inventory] with the default, [True]. *)
Definition filter_by_metadata (self : eoDataCube)
           (metadata : list (string * Value)) (in_place : bool)
  : Res (Returned * eoDataCube) :=
  match inventory self with
  | None => Raise (TypeError "'NoneType' object is not subscriptable")
  | Some df =>
      fps <- pd.getitem df "filepath" ;;
      bool_filter <- mapM (metadata_select metadata) fps ;;
      df' <- pd.select df bool_filter ;;
      _eoDataCube__assign_inventory self (Some df') true
  end.

(** *** clone, __deepcopy__ *)

(** [copy.deepcopy] of a value is the value. *)
Definition __deepcopy__ (self : eoDataCube) : Res eoDataCube :=
  __init__ (filepaths self) (grid self) (dir_tree self)
           (smart_filename_creator self) (dimensions self) (inventory self).

Definition clone (self : eoDataCube) : Res eoDataCube := __deepcopy__ self.

(** *** __filter_by_dimension *)

(** The body of the loop of lines 613-628 for the filters from index [i] on;
    [inv] is the local variable [inventory].  Nothing in the body adds to
    [filtered_inventories]. *)
Fixpoint filter_loop (name : string) (values : list (Operand Value))
         (expressions : option (list (Operand string))) (i : nat)
         (inv : option DataFrame) : Res (option DataFrame) :=
  match values with
  | [] => Ok inv
  | value0 :: rest =>
      expression0 <-
        match expressions with
        | None => Raise (TypeError "'NoneType' object is not subscriptable")
        | Some es =>
            match nth_error es i with
            | Some e => Ok e
            | None => Raise (IndexError "list index out of range")
            end
        end ;;
      let value := as_list value0 in
      let expression := as_list expression0 in
      filter_cmd <-
        (if Nat.eqb (length value) 2 && Nat.eqb (length expression) 2
         then Ok range_cmd
         else if Nat.eqb (length value) 1 && Nat.eqb (length expression) 1
         then Ok exact_cmd
         else Raise (Exception_length (length value) (length expression))) ;;
      inv' <- py_eval filter_cmd (mkEnv inv name expression value) ;;
      filter_loop name rest expressions (S i) inv'
  end.

Definition _eoDataCube__filter_by_dimension (self : eoDataCube)
           (values : list (Operand Value))
           (expressions : option (list (Operand string))) (name : string)
           (split in_place : bool) : Res (Returned * eoDataCube) :=
  let filtered_inventories : list DataFrame := [] in
  _ <- filter_loop name values expressions 0 (inventory self) ;;
  if split then
    eodcs <- mapM (fun filtered_inventory =>
                     from_inventory (Some filtered_inventory) (grid self)
                                    (dir_tree self))
                  filtered_inventories ;;
    Ok (RetList eodcs, self)
  else
    filtered_inventory <- pd.concat filtered_inventories ;;
    _eoDataCube__assign_inventory self (Some filtered_inventory) in_place.

Definition filter_by_dimension (self : eoDataCube) (values : list (Operand Value))
           (expressions : option (list (Operand string))) (name : string)
           (in_place : bool) : Res (Returned * eoDataCube) :=
  _eoDataCube__filter_by_dimension self values expressions name false in_place.

Definition split_by_dimension (self : eoDataCube) (values : list (Operand Value))
           (expressions : option (list (Operand string))) (name : string)
  : Res (Returned * eoDataCube) :=
  _eoDataCube__filter_by_dimension self values expressions name true false.

(** *** get_yearly_dcs *)

(** [timestamps_years]: a dictionary from a year to the time stamps of that
    year, in insertion order. *)
Definition YearDict := list (Z * list Timestamp).

Fixpoint year_get (d : YearDict) (y : Z) : option (list Timestamp) :=
  match d with
  | [] => None
  | (k, l) :: r => if Z.eqb k y then Some l else year_get r y
  end.

(** [d[y] = l] *)
Fixpoint year_set (d : YearDict) (y : Z) (l : list Timestamp) : YearDict :=
  match d with
  | [] => [(y, l)]
  | (k, l0) :: r => if Z.eqb k y then (k, l) :: r else (k, l0) :: year_set r y l
  end.

Definition year_append (d : YearDict) (y : Z) (t : Timestamp) : YearDict :=
  match year_get d y with
  | Some l => year_set d y (l ++ [t])
  | None => d
  end.

Definition timestamp_of (v : Value) : Res Timestamp :=
  match v with
  | VTime t => Ok t
  | _ => Raise (AttributeError "year")
  end.

(** Lines 374-376: only the requested years collect time stamps. *)
Fixpoint collect_requested (years : list Z) (col : list Value) (d : YearDict)
  : Res YearDict :=
  match col with
  | [] => Ok d
  | v :: r =>
      t <- timestamp_of v ;;
      collect_requested years r
        (if existsb (Z.eqb (year t)) years then year_append d (year t) t else d)
  end.

(** Lines 380-384: every year met gets an entry. *)
Fixpoint collect_all (col : list Value) (d : YearDict) : Res YearDict :=
  match col with
  | [] => Ok d
  | v :: r =>
      t <- timestamp_of v ;;
      let d' := match year_get d (year t) with
                | Some _ => d
                | None => year_set d (year t) []
                end in
      collect_all r (year_append d' (year t) t)
  end.

Fixpoint insert_sorted (y : Z) (l : list Z) : list Z :=
  match l with
  | [] => [y]
  | x :: r => if Z.leb y x then y :: x :: r else x :: insert_sorted y r
  end.

(** [sorted(years)] *)
Definition sorted (l : list Z) : list Z := fold_right insert_sorted [] l.

Definition timestamp_leb (a b : Timestamp) : bool :=
  Z.ltb (year a) (year b)
  || (Z.eqb (year a) (year b)
      && (Z.ltb (month a) (month b)
          || (Z.eqb (month a) (month b) && Z.leb (day a) (day b)))).

(** [min(l)] and [max(l)], which raise on an empty list. *)
Definition min_timestamp (l : list Timestamp) : Res Timestamp :=
  match l with
  | [] => Raise (ValueError "min() arg is an empty sequence")
  | t :: r => Ok (fold_left (fun m x => if timestamp_leb m x then m else x) r t)
  end.

Definition max_timestamp (l : list Timestamp) : Res Timestamp :=
  match l with
  | [] => Raise (ValueError "max() arg is an empty sequence")
  | t :: r => Ok (fold_left (fun m x => if timestamp_leb m x then x else m) r t)
  end.

(** Lines 390-395: one closed range per year. *)
Definition year_range (d : YearDict) (y : Z) : Res (Operand Value) :=
  match year_get d y with
  | None => Raise (KeyError "year")
  | Some l =>
      lo <- min_timestamp l ;;
      hi <- max_timestamp l ;;
      Ok (Sequence [VTime lo; VTime hi])
  end.

(** Lines 367-395: the [values] and [expressions] handed to
    [split_by_dimension]. *)
Definition yearly_filters (self : eoDataCube) (name : string)
           (years : option (list Z))
  : Res (list (Operand Value) * list (Operand string)) :=
  col <- match inventory self with
         | Some df => pd.getitem df name
         | None => Raise (TypeError "'NoneType' object is not subscriptable")
         end ;;
  '(d, ys) <-
    (if truthy years then
       let ys := match years with Some l => l | None => [] end in
       d <- collect_requested ys col (fold_left (fun d y => year_set d y []) ys []) ;;
       Ok (d, ys)
     else
       d <- collect_all col [] ;;
       Ok (d, sorted (map fst d))) ;;
  values <- mapM (year_range d) ys ;;
  Ok (values, repeat (Sequence [">="; "<="]) (length ys)).

Definition get_yearly_dcs (self : eoDataCube) (name : string)
           (years : option (list Z)) : Res (Returned * eoDataCube) :=
  '(values, expressions) <- yearly_filters self name years ;;
  split_by_dimension self values (Some expressions) name.

(** ** The module functions *)

(** Lines 702-704: the column [name] of every cube, one after the other. *)
Fixpoint gather_values (name : string) (dcs : list eoDataCube) : Res (list Value) :=
  match dcs with
  | [] => Ok []
  | dc :: rest =>
      col <- match inventory dc with
             | Some df => pd.getitem df name
             | None => Raise (TypeError "'NoneType' object is not subscriptable")
             end ;;
      more <- gather_values name rest ;;
      Ok (col ++ more)
  end.

(** The cubes of [dcs] are taken to be distinct objects; each result comes
    with the state of its cube after the call.  [('==')] is the string
    itself, not a tuple. *)
Definition match_dimension (dcs : list eoDataCube) (name : string)
           (in_place : bool) : Res (list (Returned * eoDataCube)) :=
  values <- gather_values name dcs ;;
  let unique_values := pd.unique values in
  mapM (fun dc =>
          let expressions := repeat (Single "==") (length unique_values) in
          filter_by_dimension dc (map Single unique_values) (Some expressions)
                              name in_place)
       dcs.

(** The names under which the attributes of an instance are stored.  A name
    with two leading underscores that is written inside the class body is
    stored with the class name in front of it. *)
Definition eoDataCube_attributes : list string :=
  [ "dir_tree"; "smart_filename_creator"; "history"; "filepaths"; "dimensions";
    "inventory"; "grid"; "__init__"; "from_inventory"; "rename_dimensions";
    "add_dimension"; "filter_files_with_pattern"; "filter_by_metadata";
    "filter_by_dimension"; "split_by_dimension"; "filter_spatially";
    "get_monthly_dcs"; "get_yearly_dcs"; "load"; "merge"; "match_dimension";
    "clone"; "_eoDataCube__file_type"; "_eoDataCube__geometry_from_file";
    "_eoDataCube__inventory_from_filepaths"; "_eoDataCube__filter_by_dimension";
    "_eoDataCube__assign_inventory"; "__deepcopy__" ].

(** Attribute access by the name as it is written at the place of access:
    outside the class body the name is looked up as it stands. *)
Definition getattr (attr : string) : Res unit :=
  if mem attr eoDataCube_attributes then Ok tt else Raise (AttributeError attr).

(** The loop of lines 736-737. *)
Fixpoint merge_loop (name : option string) (dcs : list eoDataCube)
         (merged_inventory : option DataFrame) : Res (option DataFrame) :=
  match dcs with
  | [] => Ok merged_inventory
  | dc :: rest =>
      merged <-
        match merged_inventory, inventory dc with
        | None, _ => Raise (AttributeError "merge")
        | Some _, None => Raise (TypeError "Can only merge Series or DataFrame objects")
        | Some l, Some r => df_merge l r name
        end ;;
      merge_loop name rest (Some merged)
  end.

(** Line 739 is written in a module function, so [dcs[0].__assign_inventory]
    is the attribute of that very name. *)
Definition merge_datacubes (dcs : list eoDataCube) (name : option string)
  : Res (Returned * eoDataCube) :=
  match dcs with
  | [] => Raise (IndexError "list index out of range")
  | dc0 :: dcs' =>
      merged_inventory <- merge_loop name dcs' (inventory dc0) ;;
      match dcs' with
      | [] => Raise (IndexError "list index out of range")
      | dc :: _ =>
          _ <- getattr "__assign_inventory" ;;
          _eoDataCube__assign_inventory dc merged_inventory false
      end
  end.

(** *** merge, match_dimension (the methods) *)

Definition eoDataCube_merge (self dc_other : eoDataCube) (name : option string)
  : Res (Returned * eoDataCube) :=
  merge_datacubes [self; dc_other] name.

Definition eoDataCube_match_dimension (self dc_other : eoDataCube)
           (name : string) (in_place : bool) : Res (Returned * eoDataCube) :=
  matched <- match_dimension [self; dc_other] name in_place ;;
  match matched with
  | r :: _ => Ok r
  | [] => Raise (IndexError "list index out of range")
  end.

End Cube.

(** ** The other methods of the class *)

(** The loops of [get_monthly_dcs] (lines 325-327 and 331-335) are those of
    [get_yearly_dcs] with the attribute [month] in the place of [year]; the
    loops are written once for the attribute read off a time stamp. *)
Fixpoint collect_requested_by (attr : Timestamp -> Z) (wanted : list Z)
         (col : list Value) (d : YearDict) : Res YearDict :=
  match col with
  | [] => Ok d
  | v :: r =>
      t <- timestamp_of v ;;
      collect_requested_by attr wanted r
        (if existsb (Z.eqb (attr t)) wanted then year_append d (attr t) t else d)
  end.

Fixpoint collect_all_by (attr : Timestamp -> Z) (col : list Value) (d : YearDict)
  : Res YearDict :=
  match col with
  | [] => Ok d
  | v :: r =>
      t <- timestamp_of v ;;
      let d' := match year_get d (attr t) with
                | Some _ => d
                | None => year_set d (attr t) []
                end in
      collect_all_by attr r (year_append d' (attr t) t)
  end.

(** The truth value of [self.inventory] ([if self.inventory:]): pandas
    refuses to give one for a frame. *)
Definition frame_truth (inv : option DataFrame) : Res bool :=
  match inv with
  | Some _ => Raise (ValueError "The truth value of a DataFrame is ambiguous")
  | None => Ok false
  end.

Section OtherMethods.

Variable open_src : string -> string -> Res (option Dataset).
Variable py_eval : string -> EvalEnv -> Res (option DataFrame).

(** The module [re]: a compiled pattern, [re.compile] and the truth value of
    [re.match(a, b)], with [a] and [b] in the order in which they are passed. *)
Variable Regex : Type.
Variable re_compile : string -> Res Regex.
Variable re_match : string -> Regex -> Res bool.

(** The region of interest and geopandas' [intersects] on one cell of the
    geometry column. *)
Variable Roi : Type.
Variable intersects : Value -> Roi -> bool.

(** *** filter_files_with_pattern *)

(** Lines 163-174.  The file path, or its base name, is passed to [re.match]
    in the first place and the compiled pattern in the second. *)
Definition filter_files_with_pattern (self : eoDataCube) (pattern : string)
           (full_path in_place : bool) : Res (Returned * eoDataCube) :=
  has_inventory <- frame_truth (inventory self) ;;
  if has_inventory then
    match inventory self with
    | None => Raise (TypeError "'NoneType' object is not subscriptable")
    | Some df =>
        fps <- pd.getitem df "filepath" ;;
        compiled <- re_compile pattern ;;
        idx_filter <-
          mapM (fun cell =>
                  match cell with
                  | VStr x =>
                      re_match (if full_path then x else os_path.basename x) compiled
                  | _ => Raise (TypeError "expected str, bytes or os.PathLike object")
                  end) fps ;;
        df' <- pd.select df idx_filter ;;
        _eoDataCube__assign_inventory open_src self (Some df') in_place
    end
  else Ok (RetNone, self).

(** *** filter_spatially *)

(** Lines 293-298; [tilenames], [sref] and [name] are parameters the body does
    not read.  Without a region of interest, with a grid, or without a
    geometry column the method falls off its end and returns [None]. *)
Definition filter_spatially (self : eoDataCube) (tilenames : option (list string))
           (roi : option Roi) (sref : option nat) (name : string)
           (in_place : bool) : Res (Returned * eoDataCube) :=
  match roi with
  | Some r =>
      match grid self with
      | Some _ => Ok (RetNone, self)
      | None =>
          match inventory self with
          | Some df =>
              if mem "geometry" (pd.keys df) then
                geoms <- pd.getitem df "geometry" ;;
                df' <- pd.select df (map (fun g => intersects g r) geoms) ;;
                _eoDataCube__assign_inventory open_src self (Some df') in_place
              else Ok (RetNone, self)
          | None => Ok (RetNone, self)
          end
      end
  | None => Ok (RetNone, self)
  end.

(** *** get_monthly_dcs *)

(** The body of the loop of lines 318-348 for the yearly cubes that are left.
    [months] and [sort] are the local variables of these names, which one
    round of the loop hands to the next; [split_by_dimension] is called on
    [self], not on the yearly cube. *)
Fixpoint monthly_loop (self : eoDataCube) (name : string)
         (yearly_eodcs : list eoDataCube) (months : option (list Z)) (sort : bool)
         (monthly_eodcs : list eoDataCube) : Res (list eoDataCube * eoDataCube) :=
  match yearly_eodcs with
  | [] => Ok (monthly_eodcs, self)
  | yearly_eodc :: rest =>
      col <- match inventory yearly_eodc with
             | Some df => pd.getitem df name
             | None => Raise (TypeError "'NoneType' object is not subscriptable")
             end ;;
      '(d, months1, sort1) <-
        (if truthy months then
           let ms := match months with Some l => l | None => [] end in
           d <- collect_requested_by month ms col
                  (fold_left (fun d m => year_set d m []) ms []) ;;
           Ok (d, ms, sort)
         else
           d <- collect_all_by month col [] ;;
           Ok (d, map fst d, true)) ;;
      let months2 := if sort1 then sorted months1 else months1 in
      values <- mapM (year_range d) months2 ;;
      let expressions := repeat (Sequence [">="; "<="]) (length months2) in
      '(r, self') <- split_by_dimension open_src py_eval self values
                       (Some expressions) name ;;
      match r with
      | RetList dcs =>
          monthly_loop self' name rest (Some months2) sort1 (monthly_eodcs ++ dcs)
      | _ => Raise (TypeError "'eoDataCube' object is not iterable")
      end
  end.

Definition get_monthly_dcs (self : eoDataCube) (name : string)
           (months : option (list Z)) : Res (Returned * eoDataCube) :=
  '(r, self') <- get_yearly_dcs open_src py_eval self name None ;;
  match r with
  | RetList yearly_eodcs =>
      '(monthly_eodcs, self'') <- monthly_loop self' name yearly_eodcs months false [] ;;
      Ok (RetList monthly_eodcs, self'')
  | _ => Raise (TypeError "'eoDataCube' object is not iterable")
  end.

End OtherMethods.

(** ** Two readings of [eval] *)

(** [eval] as the interpreter runs it.  Its argument is parsed as an
    expression before any variable is looked up, and both command strings put
    a subscription, a name and a subscription side by side with no operator
    between them ([inventory[name] expression[0] value[0]]): the strings are
    passed as they are written, nothing is formatted into them.  Neither is an
    expression, so [eval] raises SyntaxError whatever the variables hold. *)
Definition eval_as_written (cmd : string) (env : EvalEnv) : Res (option DataFrame) :=
  Raise (SyntaxError cmd).

Definition timestamp_compare (a b : Timestamp) : comparison :=
  match Z.compare (year a) (year b) with
  | Eq => match Z.compare (month a) (month b) with
          | Eq => Z.compare (day a) (day b)
          | c => c
          end
  | c => c
  end.

Definition value_compare (a b : Value) : option comparison :=
  match a, b with
  | VInt x, VInt y => Some (Z.compare x y)
  | VStr x, VStr y => Some (String.compare x y)
  | VTime x, VTime y => Some (timestamp_compare x y)
  | _, _ => None
  end.

(** A comparison operator given by its text, applied to a cell and a bound. *)
Definition apply_op (op : string) (cell bound : Value) : Res bool :=
  if String.eqb op "==" then Ok (pd.value_eqb cell bound)
  else if String.eqb op "!=" then Ok (negb (pd.value_eqb cell bound))
  else
    match value_compare cell bound with
    | None => Raise (TypeError "values of these types are not ordered")
    | Some c =>
        if String.eqb op "<" then Ok (match c with Lt => true | _ => false end)
        else if String.eqb op "<=" then Ok (match c with Gt => false | _ => true end)
        else if String.eqb op ">" then Ok (match c with Gt => true | _ => false end)
        else if String.eqb op ">=" then Ok (match c with Lt => false | _ => true end)
        else Raise (SyntaxError op)
    end.

Definition column_mask (df : DataFrame) (name op : string) (bound : Value)
  : Res (list bool) :=
  col <- pd.getitem df name ;;
  mapM (fun cell => apply_op op cell bound) col.

Fixpoint and_masks (a b : list bool) : list bool :=
  match a, b with
  | x :: a', y :: b' => (x && y) :: and_masks a' b'
  | _, _ => []
  end.

(** [eval] as the docstring of [__filter_by_dimension] describes the filter:
    the operators and bounds applied to the column, the two halves of a range
    joined by AND.  It is the second instance of the parameter [py_eval], used
    to show which results do not depend on how [eval] is read. *)
Definition eval_as_documented (cmd : string) (env : EvalEnv) : Res (option DataFrame) :=
  match env_inventory env with
  | None => Raise (TypeError "'NoneType' object is not subscriptable")
  | Some df =>
      match env_expression env, env_value env with
      | [op0; op1], [v0; v1] =>
          if String.eqb cmd range_cmd then
            m0 <- column_mask df (env_name env) op0 v0 ;;
            m1 <- column_mask df (env_name env) op1 v1 ;;
            df' <- pd.select df (and_masks m0 m1) ;;
            Ok (Some df')
          else Raise (SyntaxError cmd)
      | [op0], [v0] =>
          if String.eqb cmd exact_cmd then
            m0 <- column_mask df (env_name env) op0 v0 ;;
            df' <- pd.select df m0 ;;
            Ok (Some df')
          else Raise (SyntaxError cmd)
      | _, _ => Raise (SyntaxError cmd)
      end
  end.

(** A data set reader for files that cannot be opened. *)
Definition no_src (file_type filepath : string) : Res (option Dataset) :=
  Raise (ValueError "file cannot be opened").

(** ** Scenarios *)

Module Scenario.

(** A translator that reads the fields of a base name off a table and raises
    on every other name. *)
Fixpoint table_lookup (tbl : list (string * Fields)) (b : string) : Res Fields :=
  match tbl with
  | [] => Raise (ValueError "not a known file name")
  | (k, f) :: r => if String.eqb k b then Ok f else table_lookup r b
  end.

Definition failing_translator : Translator :=
  fun _ => Raise (ValueError "not a known file name").

Definition date (y m d : Z) : Value := VTime (mkTimestamp y m d).

Definition dated_files : list string :=
  [ "/data/D20160101_SIG0.dat"; "/data/D20160115_SIG0.dat";
    "/data/D20160210_SIG0.dat"; "/data/D20170301_SIG0.dat" ].

Definition dated_translator : Translator :=
  table_lookup
    [ ("D20160101_SIG0.dat", [("time", date 2016 1 1)]);
      ("D20160115_SIG0.dat", [("time", date 2016 1 15)]);
      ("D20160210_SIG0.dat", [("time", date 2016 2 10)]);
      ("D20170301_SIG0.dat", [("time", date 2017 3 1)]) ].

Definition pol_files : list string :=
  [ "/data/a_VV.dat"; "/data/b_VH.dat"; "/data/c_VV.dat"; "/data/d_VH.dat";
    "/data/e_VV.dat" ].

Definition pol_translator : Translator :=
  table_lookup
    [ ("a_VV.dat", [("pol", VStr "VV")]); ("b_VH.dat", [("pol", VStr "VH")]);
      ("c_VV.dat", [("pol", VStr "VV")]); ("d_VH.dat", [("pol", VStr "VH")]);
      ("e_VV.dat", [("pol", VStr "VV")]) ].

Definition five_files : list string :=
  [ "/data/f1.dat"; "/data/f2.dat"; "/data/f3.dat"; "/data/f4.dat";
    "/data/f5.dat" ].

(** The cube built by [eoDataCube(filepaths=dated_files,
    smart_filename_creator=dated_translator, dimensions=['time'])]. *)
Definition dated_cube : eoDataCube :=
  mkCube None (Some dated_translator) [] (Some dated_files) (Some ["time"])
    (Some [ ("filepath", map VStr dated_files);
            ("time", [date 2016 1 1; date 2016 1 15; date 2016 2 10; date 2017 3 1]);
            ("geometry", [VNone; VNone; VNone; VNone]) ])
    None.

(** The cube built by [eoDataCube(filepaths=pol_files,
    smart_filename_creator=pol_translator)]. *)
Definition pol_cube : eoDataCube :=
  mkCube None (Some pol_translator) [] (Some pol_files) (Some ["pol"])
    (Some [ ("filepath", map VStr pol_files);
            ("pol", [VStr "VV"; VStr "VH"; VStr "VV"; VStr "VH"; VStr "VV"]);
            ("geometry", [VNone; VNone; VNone; VNone; VNone]) ])
    None.

(** The cube built by [eoDataCube(filepaths=five_files,
    smart_filename_creator=failing_translator, dimensions=['time'])]. *)
Definition five_cube : eoDataCube :=
  mkCube None (Some failing_translator) [] (Some five_files) (Some [])
    (Some [ ("filepath", map VStr five_files);
            ("geometry", [VNone; VNone; VNone; VNone; VNone]) ])
    None.

(** A merge that keeps the left frame, to run [merge_datacubes] with. *)
Definition keep_left (l r : DataFrame) (on : option string) : Res DataFrame :=
  Ok l.

(** The cube built from the two VH files of [pol_files] alone. *)
Definition vh_cube : eoDataCube :=
  mkCube None (Some pol_translator) [] (Some ["/data/b_VH.dat"; "/data/d_VH.dat"])
    (Some ["pol"])
    (Some [ ("filepath", [VStr "/data/b_VH.dat"; VStr "/data/d_VH.dat"]);
            ("pol", [VStr "VH"; VStr "VH"]);
            ("geometry", [VNone; VNone]) ])
    None.

(** [dated_cube] after [add_dimension('value', [1, 2, 3, 4], in_place=True)]. *)
Definition dated_cube_with_value : eoDataCube :=
  mkCube None (Some dated_translator) [] (Some dated_files) (Some ["time"])
    (Some [ ("filepath", map VStr dated_files);
            ("time", [date 2016 1 1; date 2016 1 15; date 2016 2 10; date 2017 3 1]);
            ("geometry", [VNone; VNone; VNone; VNone]);
            ("value", [VInt 1; VInt 2; VInt 3; VInt 4]) ])
    None.

(** [dated_cube] with every row of its inventory dropped. *)
Definition dated_cube_emptied : eoDataCube :=
  mkCube None (Some dated_translator) [] (Some dated_files) (Some ["time"])
    (Some [ ("filepath", []); ("time", []); ("geometry", []) ])
    None.


(** A cube of two raster files with their boundaries. *)
Definition raster_cube : eoDataCube :=
  mkCube None None [] (Some ["/data/a.tif"; "/data/b.nc"]) (Some ["pol"])
    (Some [ ("filepath", [VStr "/data/a.tif"; VStr "/data/b.nc"]);
            ("pol", [VStr "VV"; VStr "VH"]);
            ("geometry", [VGeom 1; VGeom 2]) ])
    None.

(** A region of interest that a boundary intersects when it is the polygon of
    that number. *)
Definition same_polygon (g : Value) (roi : nat) : bool :=
  match g with
  | VGeom p => Nat.eqb p roi
  | _ => false
  end.

(** A data set reader that finds no data set behind any file. *)
Definition empty_src (file_type filepath : string) : Res (option Dataset) :=
  Ok None.

End Scenario.

(** ** The properties of the specification *)

(** The translator raises on the base name of the file. *)
Definition translation_fails (create : Translator) (filepath : string) : Prop :=
  exists e, create (os_path.basename filepath) = Raise e.

(** The dictionary of [__inventory_from_filepaths] keeps the file path as its
    first key, and no other key is the file path. *)
Definition filepath_first {C : Type} (inv : list (string * C)) : Prop :=
  exists c rest,
    inv = ("filepath", c) :: rest
    /\ Forall (fun kc => String.eqb (fst kc) "filepath" = false) rest.

(** The columns other than the file path after an untranslated file has been
    added: each is [None]. *)
Definition none_columns {C : Type} (rest : list (string * C)) : list (string * pd.Col) :=
  map (fun kc => (fst kc, pd.NoneCol)) rest.

(** A value and its expression are both one item or both two items. *)
Definition well_formed (p : Operand Value * Operand string) : bool :=
  let lv := length (as_list (fst p)) in
  let le := length (as_list (snd p)) in
  (Nat.eqb lv 1 && Nat.eqb le 1) || (Nat.eqb lv 2 && Nat.eqb le 2).

(** Every value that has an expression at its index is well formed with it. *)
Definition well_formed_filters (values : list (Operand Value))
           (expressions : option (list (Operand string))) : bool :=
  match expressions with
  | Some es => forallb well_formed (combine values es)
  | None => true
  end.

(** The columns of the inventory other than the file path and the geometry. *)
Definition dimension_columns (df : DataFrame) : list string :=
  filter (fun k => negb (String.eqb k "filepath" || String.eqb k "geometry"))
         (pd.keys df).

(** The invariant of the dimension list: it names the columns of the
    inventory other than the file path and the geometry. *)
Definition dimensions_consistent (dc : eoDataCube) : bool :=
  match dimensions dc, inventory dc with
  | Some dims, Some df =>
      if list_eq_dec string_dec dims (dimension_columns df) then true else false
  | _, _ => true
  end.

(** The translator returns the fields of the file. *)
Definition translated (create : Translator) (filepath : string) : bool :=
  match create (os_path.basename filepath) with
  | Ok _ => true
  | Raise _ => false
  end.

(** The time stamps of the list whose attribute ([year] or [month]) is [k]. *)
Definition with_attr (attr : Timestamp -> Z) (k : Z) (ts : list Timestamp)
  : list Timestamp :=
  filter (fun t => Z.eqb (attr t) k) ts.

(** A closed range from the earliest to the latest of the time stamps [ts]
    whose attribute is [k]. *)
Definition range_of (attr : Timestamp -> Z) (ts : list Timestamp) (k : Z)
           (v : Operand Value) : Prop :=
  exists lo hi,
    v = Sequence [VTime lo; VTime hi]
    /\ In lo ts /\ In hi ts /\ attr lo = k /\ attr hi = k
    /\ forall t, In t ts -> attr t = k ->
                 timestamp_leb lo t = true /\ timestamp_leb t hi = true.

(** The time stamps with attribute [k], as the dictionaries of
    [get_yearly_dcs] and [get_monthly_dcs] hold them: no entry when there is
    none. *)
Definition grouped (attr : Timestamp -> Z) (ts : list Timestamp) (k : Z)
  : option (list Timestamp) :=
  match with_attr attr k ts with
  | [] => None
  | l => Some l
  end.

(** * Properties *)

(** ** Lists *)

Lemma skipn_nth_error {A : Type} (l : list A) (i : nat) (a : A) :
  nth_error l i = Some a -> skipn i l = a :: skipn (S i) l.
Proof.
  revert i.
  induction l as [| x l IH]; intros [| i] H; simpl in *; try discriminate.
  - injection H as ->. reflexivity.
  - apply IH. exact H.
Qed.

(** ** The scenario cubes are what the constructor builds *)

Lemma dated_cube_constructed :
  __init__ no_src (Some Scenario.dated_files) None None
           (Some Scenario.dated_translator) (Some ["time"]) None
  = Ok Scenario.dated_cube.
Proof. reflexivity. Qed.

Lemma pol_cube_constructed :
  __init__ no_src (Some Scenario.pol_files) None None
           (Some Scenario.pol_translator) None None
  = Ok Scenario.pol_cube.
Proof. reflexivity. Qed.

Lemma vh_cube_constructed :
  __init__ no_src (Some ["/data/b_VH.dat"; "/data/d_VH.dat"]) None None
           (Some Scenario.pol_translator) None None
  = Ok Scenario.vh_cube.
Proof. reflexivity. Qed.

Lemma five_cube_constructed :
  __init__ no_src (Some Scenario.five_files) None None
           (Some Scenario.failing_translator) (Some ["time"]) None
  = Ok Scenario.five_cube.
Proof. reflexivity. Qed.

(** ** The filter engine *)

Section FilterEngine.

Variable open_src : string -> string -> Res (option Dataset).
Variable py_eval : string -> EvalEnv -> Res (option DataFrame).

(** Without [split] the call ends in [pd.concat] of the empty list
    [filtered_inventories], unless the loop has raised before. *)
Lemma filter_by_dimension_raises self values expressions name in_place :
  exists e,
    filter_by_dimension open_src py_eval self values expressions name in_place
    = Raise e.
Proof.
  unfold filter_by_dimension, _eoDataCube__filter_by_dimension.
  destruct (filter_loop py_eval name values expressions 0 (inventory self))
    as [inv | e]; simpl; eexists; reflexivity.
Qed.

(** With [split] the call returns the empty list, unless the loop has
    raised. *)
Lemma split_by_dimension_cases self values expressions name :
  split_by_dimension open_src py_eval self values expressions name
  = Ok (RetList [], self)
  \/ exists e,
    split_by_dimension open_src py_eval self values expressions name = Raise e.
Proof.
  unfold split_by_dimension, _eoDataCube__filter_by_dimension.
  destruct (filter_loop py_eval name values expressions 0 (inventory self))
    as [inv | e]; simpl.
  - left. reflexivity.
  - right. eexists. reflexivity.
Qed.

Lemma get_yearly_dcs_cases self name years :
  get_yearly_dcs open_src py_eval self name years = Ok (RetList [], self)
  \/ exists e, get_yearly_dcs open_src py_eval self name years = Raise e.
Proof.
  unfold get_yearly_dcs.
  destruct (yearly_filters self name years) as [[values expressions] | e]; simpl.
  - apply split_by_dimension_cases.
  - right. eexists. reflexivity.
Qed.

(** The loop raises as soon as it meets a value and an expression that are
    not well formed together, if it has not raised before. *)
Lemma filter_loop_ill_formed name values es i inv :
  forallb well_formed (combine values (skipn i es)) = false ->
  exists e, filter_loop py_eval name values (Some es) i inv = Raise e.
Proof.
  revert i inv.
  induction values as [| v rest IH]; intros i inv H; simpl in *.
  - discriminate H.
  - destruct (nth_error es i) as [e0 |] eqn:Hnth; simpl.
    + rewrite (skipn_nth_error _ _ _ Hnth) in H. simpl in H.
      unfold well_formed in H at 1. simpl in H.
      destruct (Nat.eqb (length (as_list v)) 2 && Nat.eqb (length (as_list e0)) 2)
        eqn:H2; simpl.
      * rewrite orb_true_r in H. simpl in H.
        destruct (py_eval range_cmd _) as [inv' | e]; simpl.
        -- apply IH. exact H.
        -- eexists. reflexivity.
      * rewrite orb_false_r in H.
        destruct (Nat.eqb (length (as_list v)) 1 && Nat.eqb (length (as_list e0)) 1)
          eqn:H1; simpl.
        -- simpl in H.
           destruct (py_eval exact_cmd _) as [inv' | e]; simpl.
           ++ apply IH. exact H.
           ++ eexists. reflexivity.
        -- eexists. reflexivity.
    + eexists. reflexivity.
Qed.

(** On well-formed filters the exception of line 627 can only come out of
    [eval]. *)
Lemma filter_loop_well_formed name values expressions i inv lv le :
  (forall cmd env, py_eval cmd env <> Raise (Exception_length lv le)) ->
  match expressions with
  | Some es => forallb well_formed (combine values (skipn i es)) = true
  | None => True
  end ->
  filter_loop py_eval name values expressions i inv
  <> Raise (Exception_length lv le).
Proof.
  intros Heval. revert i inv.
  induction values as [| v rest IH]; intros i inv H; simpl.
  - discriminate.
  - destruct expressions as [es |]; simpl; [| discriminate].
    destruct (nth_error es i) as [e0 |] eqn:Hnth; simpl; [| discriminate].
    rewrite (skipn_nth_error _ _ _ Hnth) in H. simpl in H.
    apply andb_true_iff in H. destruct H as [Hwf Hrest].
    unfold well_formed in Hwf. simpl in Hwf.
    destruct (Nat.eqb (length (as_list v)) 2 && Nat.eqb (length (as_list e0)) 2)
      eqn:H2; simpl.
    + destruct (py_eval range_cmd _) as [inv' | e] eqn:He; simpl.
      * apply (IH (S i) inv'). exact Hrest.
      * intros Hc. apply (Heval _ _ (eq_trans He Hc)).
    + rewrite orb_false_r in Hwf. rewrite Hwf. simpl.
      destruct (py_eval exact_cmd _) as [inv' | e] eqn:He; simpl.
      * apply (IH (S i) inv'). exact Hrest.
      * intros Hc. apply (Heval _ _ (eq_trans He Hc)).
Qed.

End FilterEngine.

(** C1.  [split_by_dimension] does not return one cube per predicate.  The
    loop of [__filter_by_dimension] never adds to [filtered_inventories], so
    whatever [eval] does the call returns the empty list or raises; on the
    cube of three VV and two VH files, split by the two polarisations, it
    raises SyntaxError when [eval] is run as written and returns no cube when
    the filters are applied as documented. *)
Theorem split_by_dimension_returns_no_cube :
  (forall open_src py_eval self values expressions name,
      split_by_dimension open_src py_eval self values expressions name
      = Ok (RetList [], self)
      \/ exists e,
        split_by_dimension open_src py_eval self values expressions name = Raise e)
  /\ split_by_dimension no_src eval_as_written Scenario.pol_cube
       [Single (VStr "VV"); Single (VStr "VH")]
       (Some [Single "=="; Single "=="]) "pol"
     = Raise (SyntaxError exact_cmd)
  /\ split_by_dimension no_src eval_as_documented Scenario.pol_cube
       [Single (VStr "VV"); Single (VStr "VH")]
       (Some [Single "=="; Single "=="]) "pol"
     = Ok (RetList [], Scenario.pol_cube).
Proof.
  split; [| split].
  - intros. apply split_by_dimension_cases.
  - reflexivity.
  - reflexivity.
Qed.

(** C2.  [filter_by_dimension] never returns a cube: without [split] the call
    ends in [pd.concat] of the empty list.  On the cube of four dated files
    the closed range from the first to the last date holds for every row (the
    documented filter returns the whole inventory), yet the call raises:
    SyntaxError when [eval] is run as written, ValueError from [pd.concat]
    when the filter is applied as documented. *)
Theorem filter_by_dimension_never_returns :
  (forall open_src py_eval self values expressions name in_place,
      exists e,
        filter_by_dimension open_src py_eval self values expressions name in_place
        = Raise e)
  /\ eval_as_documented range_cmd
       (mkEnv (inventory Scenario.dated_cube) "time" [">="; "<="]
              [Scenario.date 2016 1 1; Scenario.date 2017 3 1])
     = Ok (inventory Scenario.dated_cube)
  /\ filter_by_dimension no_src eval_as_written Scenario.dated_cube
       [Sequence [Scenario.date 2016 1 1; Scenario.date 2017 3 1]]
       (Some [Sequence [">="; "<="]]) "time" false
     = Raise (SyntaxError range_cmd)
  /\ filter_by_dimension no_src eval_as_documented Scenario.dated_cube
       [Sequence [Scenario.date 2016 1 1; Scenario.date 2017 3 1]]
       (Some [Sequence [">="; "<="]]) "time" false
     = Raise (ValueError "No objects to concatenate").
Proof.
  split; [| split; [| split]].
  - intros. apply filter_by_dimension_raises.
  - reflexivity.
  - reflexivity.
  - reflexivity.
Qed.

(** [sorted] puts the years in ascending order and keeps each of them. *)
Lemma insert_sorted_sorted y l :
  Sorted Z.le l -> Sorted Z.le (insert_sorted y l).
Proof.
  intros H. induction H as [| x l Hl IH Hx]; simpl.
  - constructor; constructor.
  - destruct (Z.leb y x) eqn:Hyx.
    + apply Z.leb_le in Hyx. constructor.
      * constructor; assumption.
      * constructor. exact Hyx.
    + apply Z.leb_gt in Hyx. constructor; [exact IH |].
      destruct Hx as [| z l' Hz]; simpl.
      * constructor. lia.
      * destruct (Z.leb y z); constructor; [lia | exact Hz].
Qed.

Lemma sorted_ascending l : Sorted Z.le (sorted l).
Proof.
  induction l as [| y l IH]; simpl.
  - constructor.
  - apply insert_sorted_sorted. exact IH.
Qed.

Lemma insert_sorted_perm y l : Permutation (y :: l) (insert_sorted y l).
Proof.
  induction l as [| x l IH]; simpl.
  - apply Permutation_refl.
  - destruct (Z.leb y x).
    + apply Permutation_refl.
    + apply perm_trans with (x :: y :: l); [apply perm_swap |].
      apply perm_skip. exact IH.
Qed.

Lemma sorted_perm l : Permutation l (sorted l).
Proof.
  induction l as [| y l IH]; simpl.
  - apply perm_nil.
  - apply perm_trans with (y :: sorted l); [apply perm_skip; exact IH |].
    apply insert_sorted_perm.
Qed.

Lemma mapM_length {A B : Type} (f : A -> Res B) (l : list A) (bs : list B) :
  mapM f l = Ok bs -> length bs = length l.
Proof.
  revert bs. induction l as [| a l IH]; simpl; intros bs H.
  - injection H as <-. reflexivity.
  - destruct (f a) as [b | e]; simpl in H; [| discriminate H].
    destruct (mapM f l) as [bs' | e]; simpl in H; [| discriminate H].
    injection H as <-. simpl. rewrite (IH bs' eq_refl). reflexivity.
Qed.

(** [get_yearly_dcs] hands over as many expressions as values, every
    expression the closed range. *)
Lemma yearly_filters_expressions self name years values expressions :
  yearly_filters self name years = Ok (values, expressions) ->
  expressions = repeat (Sequence [">="; "<="]) (length values).
Proof.
  unfold yearly_filters. intros H.
  destruct (match inventory self with Some df => pd.getitem df name | None => _ end)
    as [col | e]; simpl in H; [| discriminate H].
  destruct (if truthy years then _ else _) as [[d ys] | e]; simpl in H;
    [| discriminate H].
  destruct (mapM (year_range d) ys) as [vs | e] eqn:Hvs; simpl in H;
    [| discriminate H].
  injection H as <- <-. rewrite (mapM_length _ _ _ Hvs). reflexivity.
Qed.

(** C4.  [get_yearly_dcs] computes the closed ranges of the specification and
    then returns no cube.  For the four files dated 2016-01-01, 2016-01-15,
    2016-02-10 and 2017-03-01 the ranges are 2016-01-01..2016-02-10 and
    2017-03-01..2017-03-01, in this order, and the documented filter would
    select 3 rows and 1 row with them; the call itself raises SyntaxError when
    [eval] is run as written and returns the empty list otherwise. *)
Theorem get_yearly_dcs_returns_no_cube :
  (forall open_src py_eval self name years,
      get_yearly_dcs open_src py_eval self name years = Ok (RetList [], self)
      \/ exists e, get_yearly_dcs open_src py_eval self name years = Raise e)
  /\ yearly_filters Scenario.dated_cube "time" None
     = Ok ([ Sequence [Scenario.date 2016 1 1; Scenario.date 2016 2 10];
             Sequence [Scenario.date 2017 3 1; Scenario.date 2017 3 1] ],
           [ Sequence [">="; "<="]; Sequence [">="; "<="] ])
  /\ (r <- eval_as_documented range_cmd
             (mkEnv (inventory Scenario.dated_cube) "time" [">="; "<="]
                    [Scenario.date 2016 1 1; Scenario.date 2016 2 10]) ;;
      Ok (option_map pd.len r)) = Ok (Some 3)
  /\ (r <- eval_as_documented range_cmd
             (mkEnv (inventory Scenario.dated_cube) "time" [">="; "<="]
                    [Scenario.date 2017 3 1; Scenario.date 2017 3 1]) ;;
      Ok (option_map pd.len r)) = Ok (Some 1)
  /\ get_yearly_dcs no_src eval_as_written Scenario.dated_cube "time" None
     = Raise (SyntaxError range_cmd)
  /\ get_yearly_dcs no_src eval_as_documented Scenario.dated_cube "time" None
     = Ok (RetList [], Scenario.dated_cube).
Proof.
  repeat split.
  - intros. apply get_yearly_dcs_cases.
Qed.

(** C5.  A filter call whose values and expressions are not all well formed
    together (both of one item, or both of two) raises; a call whose filters
    are all well formed does not raise the exception of line 627, [eval]
    being no source of it. *)
Theorem ill_formed_filter_raises :
  forall open_src py_eval self values expressions name split in_place,
    (well_formed_filters values expressions = false ->
     exists e,
       _eoDataCube__filter_by_dimension open_src py_eval self values expressions
                                        name split in_place = Raise e)
    /\ (well_formed_filters values expressions = true ->
        (forall cmd env lv le, py_eval cmd env <> Raise (Exception_length lv le)) ->
        forall lv le,
          _eoDataCube__filter_by_dimension open_src py_eval self values expressions
                                           name split in_place
          <> Raise (Exception_length lv le)).
Proof.
  intros open_src py_eval self values expressions name split0 in_place. split.
  - intros H. destruct expressions as [es |]; simpl in H; [| discriminate H].
    destruct (filter_loop_ill_formed py_eval name values es 0 (inventory self) H)
      as [e He].
    exists e. unfold _eoDataCube__filter_by_dimension. rewrite He. reflexivity.
  - intros H Heval lv le.
    assert (Hloop : filter_loop py_eval name values expressions 0 (inventory self)
                    <> Raise (Exception_length lv le)).
    { apply filter_loop_well_formed.
      - intros cmd env. apply Heval.
      - destruct expressions; [exact H | exact I]. }
    unfold _eoDataCube__filter_by_dimension.
    destruct (filter_loop py_eval name values expressions 0 (inventory self))
      as [inv | e]; simpl.
    + destruct split0; simpl; discriminate.
    + intros Hc. injection Hc as ->. apply Hloop. reflexivity.
Qed.

Lemma ill_formed_filter_raises_witness :
  (exists e,
      _eoDataCube__filter_by_dimension no_src eval_as_written Scenario.pol_cube
        [Single (VStr "VV"); Sequence [VStr "VV"; VStr "VH"]]
        (Some [Single "=="; Single "=="]) "pol" false false = Raise e)
  /\ _eoDataCube__filter_by_dimension no_src eval_as_written Scenario.pol_cube
       [Single (VStr "VV"); Single (VStr "VH")]
       (Some [Single "=="; Single "=="]) "pol" false false
     <> Raise (Exception_length 1 2).
Proof.
  split.
  - apply (proj1 (ill_formed_filter_raises no_src eval_as_written Scenario.pol_cube
                    [Single (VStr "VV"); Sequence [VStr "VV"; VStr "VH"]]
                    (Some [Single "=="; Single "=="]) "pol" false false)).
    reflexivity.
  - apply (proj2 (ill_formed_filter_raises no_src eval_as_written Scenario.pol_cube
                    [Single (VStr "VV"); Single (VStr "VH")]
                    (Some [Single "=="; Single "=="]) "pol" false false)).
    + reflexivity.
    + intros cmd env lv le. unfold eval_as_written. discriminate.
Defined.

(** ** Inventory construction *)

#[local] Arguments String.eqb : simpl never.

Lemma setdefault_append_other key value rest :
  String.eqb key "filepath" = false ->
  Forall (fun kc : string * list Value => String.eqb (fst kc) "filepath" = false) rest ->
  Forall (fun kc : string * list Value => String.eqb (fst kc) "filepath" = false)
         (setdefault_append key value rest).
Proof.
  intros Hkey H. induction H as [| [k c] r Hk Hr IH]; simpl.
  - constructor; [exact Hkey | constructor].
  - destruct (String.eqb k key); constructor; assumption.
Qed.

Lemma setdefault_append_filepath_first key value inv :
  filepath_first inv -> filepath_first (setdefault_append key value inv).
Proof.
  intros (c & rest & -> & Hrest). simpl.
  destruct (String.eqb "filepath" key) eqn:Hk.
  - exists (c ++ [value]), rest. split; [reflexivity | exact Hrest].
  - exists c, (setdefault_append key value rest). split; [reflexivity |].
    apply setdefault_append_other; [| exact Hrest].
    rewrite String.eqb_sym. exact Hk.
Qed.

Lemma add_fields_filepath_first dims fields inv :
  filepath_first inv -> filepath_first (add_fields dims fields inv).
Proof.
  revert inv. induction fields as [| [key value] rest IH]; intros inv H; simpl.
  - exact H.
  - apply IH. destruct (truthy dims); [destruct (mem key _) |];
      try exact H; apply setdefault_append_filepath_first; exact H.
Qed.

(** The first loop keeps the shape of the dictionary and puts every file whose
    translation raises into [untrans_filepaths]. *)
Lemma translate_filepaths_spec create dims fps :
  forall inv untrans inv1 untrans1,
    filepath_first inv ->
    translate_filepaths create dims fps inv untrans = (inv1, untrans1) ->
    filepath_first inv1
    /\ (forall fp, In fp untrans -> In fp untrans1)
    /\ (forall fp, In fp fps -> translation_fails create fp -> In fp untrans1).
Proof.
  induction fps as [| filepath rest IH]; intros inv untrans inv1 untrans1 Hinv H;
    simpl in H.
  - injection H as <- <-. repeat split; [exact Hinv | auto | intros fp []].
  - destruct (create (os_path.basename filepath)) as [fields | e] eqn:Hc.
    + apply IH in H.
      2:{ apply add_fields_filepath_first, setdefault_append_filepath_first, Hinv. }
      destruct H as (H1 & H2 & H3). repeat split; [exact H1 | exact H2 |].
      intros fp [<- | Hin] Hf.
      * destruct Hf as [e He]. rewrite Hc in He. discriminate He.
      * apply H3; assumption.
    + apply IH in H; [| exact Hinv].
      destruct H as (H1 & H2 & H3). repeat split; [exact H1 | |].
      * intros fp Hin. apply H2, in_or_app. left. exact Hin.
      * intros fp [<- | Hin] Hf.
        -- apply H2, in_or_app. right. left. reflexivity.
        -- apply H3; assumption.
Qed.

Lemma add_untranslated_rest u (rest : list (string * pd.Col)) :
  Forall (fun kc => String.eqb (fst kc) "filepath" = false) rest ->
  add_untranslated u rest = Ok (none_columns rest).
Proof.
  intros H. induction H as [| [k c] r Hk Hr IH]; simpl.
  - reflexivity.
  - simpl in Hk. rewrite Hk. simpl. rewrite IH. reflexivity.
Qed.

Lemma none_columns_filepath {C : Type} (rest : list (string * C)) :
  Forall (fun kc => String.eqb (fst kc) "filepath" = false) rest ->
  Forall (fun kc : string * pd.Col => String.eqb (fst kc) "filepath" = false)
         (none_columns rest).
Proof.
  intros H. induction H as [| [k c] r Hk Hr IH]; simpl; constructor; assumption.
Qed.

Lemma none_columns_idem {C : Type} (rest : list (string * C)) :
  none_columns (none_columns rest) = none_columns rest.
Proof.
  unfold none_columns. rewrite map_map. reflexivity.
Qed.

Lemma add_untranslated_spec u c (rest : list (string * pd.Col)) :
  Forall (fun kc => String.eqb (fst kc) "filepath" = false) rest ->
  add_untranslated u (("filepath", pd.Values c) :: rest)
  = Ok (("filepath", pd.Values (c ++ [VStr u])) :: none_columns rest).
Proof.
  intros Hrest. simpl. rewrite add_untranslated_rest by exact Hrest. reflexivity.
Qed.

Lemma add_all_untranslated_none us :
  forall c (rest : list (string * pd.Col)),
    Forall (fun kc => String.eqb (fst kc) "filepath" = false) rest ->
    add_all_untranslated us (("filepath", pd.Values c) :: none_columns rest)
    = Ok (("filepath", pd.Values (c ++ map VStr us)) :: none_columns rest).
Proof.
  induction us as [| u us IH]; intros c rest Hrest.
  - simpl. rewrite app_nil_r. reflexivity.
  - cbn [add_all_untranslated].
    rewrite add_untranslated_spec by (apply none_columns_filepath; exact Hrest).
    cbn [bind]. rewrite none_columns_idem, IH by exact Hrest.
    rewrite <- app_assoc. reflexivity.
Qed.

(** After the second loop over a non-empty [untrans_filepaths] the file paths
    are appended and every other column is [None]. *)
Lemma add_all_untranslated_spec u us c (rest : list (string * pd.Col)) :
  Forall (fun kc => String.eqb (fst kc) "filepath" = false) rest ->
  add_all_untranslated (u :: us) (("filepath", pd.Values c) :: rest)
  = Ok (("filepath", pd.Values (c ++ map VStr (u :: us))) :: none_columns rest).
Proof.
  intros Hrest. cbn [add_all_untranslated].
  rewrite add_untranslated_spec by exact Hrest. cbn [bind].
  rewrite add_all_untranslated_none by exact Hrest.
  rewrite <- app_assoc. reflexivity.
Qed.

Lemma list_lengths_none_columns {C : Type} (rest : list (string * C)) :
  pd.list_lengths (none_columns rest) = [].
Proof. induction rest as [| [k c] r IH]; simpl; [reflexivity | exact IH]. Qed.

(** The frame built from such a dictionary has the file paths and, in every
    other column, one null per row. *)
Lemma GeoDataFrame_none_columns {C : Type} col (rest : list (string * C)) :
  pd.GeoDataFrame (("filepath", pd.Values col) :: none_columns rest)
  = Ok (("filepath", col) :: map (fun kc => (fst kc, repeat VNone (length col))) rest).
Proof.
  unfold pd.GeoDataFrame. simpl. rewrite list_lengths_none_columns. simpl.
  unfold none_columns. rewrite map_map. reflexivity.
Qed.

Lemma getitem_null_column {C : Type} (rest : list (string * C)) n d :
  In d (map fst rest) ->
  pd.getitem (map (fun kc => (fst kc, repeat VNone n)) rest) d = Ok (repeat VNone n).
Proof.
  induction rest as [| [k c] r IH]; simpl; intros H.
  - destruct H.
  - destruct (String.eqb k d) eqn:Hk; [reflexivity |].
    destruct H as [-> | H]; [rewrite String.eqb_refl in Hk; discriminate Hk |].
    apply IH. exact H.
Qed.

Lemma nth_error_repeat_null n r :
  r < n -> nth_error (repeat VNone n) r = Some VNone.
Proof.
  revert r. induction n as [| n IH]; intros [| r] H; simpl; try lia.
  - reflexivity.
  - apply IH. lia.
Qed.

Lemma remove_first_keys_none_columns {C : Type} col (rest : list (string * C)) :
  remove_first "filepath" (map fst (("filepath", pd.Values col) :: none_columns rest))
  = map fst rest.
Proof.
  simpl. unfold none_columns. rewrite map_map. reflexivity.
Qed.

Lemma values_columns_filepath (rest : list (string * list Value)) :
  Forall (fun kc => String.eqb (fst kc) "filepath" = false) rest ->
  Forall (fun kc : string * pd.Col => String.eqb (fst kc) "filepath" = false)
         (map (fun kc => (fst kc, pd.Values (snd kc))) rest).
Proof.
  intros H. induction H as [| [k c] r Hk Hr IH]; simpl; constructor; assumption.
Qed.

(** What [__inventory_from_filepaths] returns when at least one file is left
    untranslated: the columns [c] and [rest] filled by the first loop, the
    file paths [u :: us] added by the second. *)
Lemma inventory_with_untranslated create fps dims c rest u us :
  fps <> [] ->
  translate_filepaths create dims fps [("filepath", [])] []
  = (("filepath", c) :: rest, u :: us) ->
  Forall (fun kc => String.eqb (fst kc) "filepath" = false) rest ->
  _eoDataCube__inventory_from_filepaths (Some fps) dims (Some create)
  = Ok (Some (map fst rest),
        Some (("filepath", c ++ map VStr (u :: us))
                :: map (fun kc => (fst kc, repeat VNone (length (c ++ map VStr (u :: us)))))
                       rest)).
Proof.
  intros Hne Htr Hrest. unfold _eoDataCube__inventory_from_filepaths.
  destruct fps as [| f fps]; [contradiction Hne; reflexivity |].
  cbn [truthy]. rewrite Htr. cbn [map fst snd].
  rewrite add_all_untranslated_spec by (apply values_columns_filepath; exact Hrest).
  cbn [bind]. rewrite GeoDataFrame_none_columns. cbn [bind].
  rewrite remove_first_keys_none_columns.
  rewrite !map_map. reflexivity.
Qed.

Lemma translate_filepaths_all_fail create dims fps :
  (forall fp, In fp fps -> translation_fails create fp) ->
  forall inv untrans,
    translate_filepaths create dims fps inv untrans = (inv, untrans ++ fps).
Proof.
  induction fps as [| f fps IH]; intros Hall inv untrans; simpl.
  - rewrite app_nil_r. reflexivity.
  - destruct (Hall f (or_introl eq_refl)) as [e He]. rewrite He.
    rewrite IH by (intros fp Hin; apply Hall; right; exact Hin).
    rewrite <- app_assoc. reflexivity.
Qed.

Lemma mapM_total {A B : Type} (f : A -> Res B) (l : list A) :
  (forall a, exists b, f a = Ok b) ->
  exists bs, mapM f l = Ok bs /\ length bs = length l.
Proof.
  intros Hf. induction l as [| a l (bs & Hbs & Hlen)]; simpl.
  - exists []. split; reflexivity.
  - destruct (Hf a) as [b Hb]. rewrite Hb, Hbs. simpl.
    exists (b :: bs). split; [reflexivity | simpl; rewrite Hlen; reflexivity].
Qed.

(** The constructor on files that are all untranslatable: one row per file and
    no dimension, whatever the requested dimensions. *)
Lemma constructor_all_untranslatable open_src (create : Translator) fps dims grid0 :
  fps <> [] ->
  (forall fp, In fp fps -> translation_fails create fp) ->
  (forall ft f, exists ds, open_src ft f = Ok ds) ->
  exists dc df,
    __init__ open_src (Some fps) grid0 None (Some create) dims None = Ok dc
    /\ inventory dc = Some df
    /\ pd.getitem df "filepath" = Ok (map VStr fps)
    /\ pd.len df = length fps
    /\ dimensions dc = Some [].
Proof.
  intros Hne Hall Hsrc.
  assert (Hinv : forall d,
             _eoDataCube__inventory_from_filepaths (Some fps) d (Some create)
             = Ok (Some [], Some [("filepath", map VStr fps)])).
  { intros d. destruct fps as [| f fps']; [contradiction Hne; reflexivity |].
    rewrite (inventory_with_untranslated create (f :: fps') d [] [] f fps').
    - reflexivity.
    - discriminate.
    - apply (translate_filepaths_all_fail create d (f :: fps') Hall).
    - constructor. }
  unfold __init__.
  assert (Ht : truthy (Some fps) = true)
    by (destruct fps; [contradiction Hne; reflexivity | reflexivity]).
  rewrite Ht. cbn [bind]. rewrite Hinv. cbn [bind].
  destruct grid0 as [g |].
  - eexists. eexists. split; [reflexivity |]. cbn.
    repeat split. exact (length_map _ _).
  - cbn [pd.keys map fst mem existsb].
    change (String.eqb "geometry" "filepath") with false. cbn [orb].
    destruct (mapM_total (_eoDataCube__geometry_from_file open_src) fps)
      as (geoms & Hg & Hlen).
    { intros a. unfold _eoDataCube__geometry_from_file.
      destruct (_eoDataCube__file_type a) as [ft |]; cbn [bind].
      - destruct (Hsrc ft a) as [ds Hds]. rewrite Hds. cbn [bind].
        destruct ds; eexists; reflexivity.
      - eexists; reflexivity. }
    rewrite Hg. cbn [bind].
    unfold add_dimension_frame, pd.GeoSeries. cbn [pd.len].
    rewrite Hlen, length_map, Nat.eqb_refl. cbn [bind].
    eexists. eexists. split; [reflexivity |].
    repeat split. exact (length_map _ _).
Qed.

(** C3.  Every file whose translation raises is a row of the inventory built
    by [__inventory_from_filepaths], and that row is null in every dimension
    column.  The constructor applied to five files that are all untranslatable,
    with the dimension list [time] requested, builds an inventory of five rows
    and an empty dimension list. *)
Theorem untranslatable_files_are_null_rows :
  (forall (create : Translator) (fps : list string) (dims : option (list string))
          (fp : string),
      In fp fps ->
      translation_fails create fp ->
      exists dims' df fpcol r,
        _eoDataCube__inventory_from_filepaths (Some fps) dims (Some create)
        = Ok (Some dims', Some df)
        /\ pd.getitem df "filepath" = Ok fpcol
        /\ nth_error fpcol r = Some (VStr fp)
        /\ forall d, In d dims' ->
                     exists col, pd.getitem df d = Ok col
                                 /\ nth_error col r = Some VNone)
  /\ (forall open_src (create : Translator) (fps : list string) (grid0 : option Grid),
         length fps = 5 ->
         (forall fp, In fp fps -> translation_fails create fp) ->
         (forall ft f, exists ds, open_src ft f = Ok ds) ->
         exists dc df,
           __init__ open_src (Some fps) grid0 None (Some create) (Some ["time"]) None
           = Ok dc
           /\ inventory dc = Some df
           /\ pd.len df = 5
           /\ option_map (@length string) (dimensions dc) = Some 0).
Proof.
  split.
  - intros create fps dims fp Hin Hfail.
    destruct (translate_filepaths create dims fps [("filepath", [])] [])
      as [inv1 untrans1] eqn:Htr.
    destruct (translate_filepaths_spec create dims fps _ _ _ _
                (ex_intro _ [] (ex_intro _ [] (conj eq_refl (Forall_nil _)))) Htr)
      as ((c & rest & -> & Hrest) & _ & Hun).
    specialize (Hun fp Hin Hfail).
    destruct untrans1 as [| u us]; [destruct Hun |].
    assert (Hne : fps <> []) by (intros ->; destruct Hin).
    pose (col := c ++ map VStr (u :: us)).
    assert (Hcol : In (VStr fp) col).
    { apply in_or_app. right. apply in_map. exact Hun. }
    destruct (In_nth_error _ _ Hcol) as [r Hr].
    exists (map fst rest).
    exists (("filepath", col) :: map (fun kc => (fst kc, repeat VNone (length col))) rest).
    exists col, r.
    split; [| split; [| split]].
    + apply inventory_with_untranslated; assumption.
    + reflexivity.
    + exact Hr.
    + intros d Hd. exists (repeat VNone (length col)). split.
      * cbn [pd.getitem].
        assert (Hdf : String.eqb "filepath" d = false).
        { apply in_map_iff in Hd. destruct Hd as ([k x] & <- & Hkx).
          rewrite Forall_forall in Hrest. rewrite String.eqb_sym.
          apply (Hrest _ Hkx). }
        rewrite Hdf. apply getitem_null_column. exact Hd.
      * apply nth_error_repeat_null. apply nth_error_Some. rewrite Hr. discriminate.
  - intros open_src create fps grid0 Hlen Hall Hsrc.
    assert (Hne : fps <> []) by (intros ->; discriminate Hlen).
    destruct (constructor_all_untranslatable open_src create fps (Some ["time"])
                grid0 Hne Hall Hsrc) as (dc & df & H1 & H2 & _ & H4 & H5).
    exists dc, df. rewrite H5, H4, Hlen. repeat split; assumption.
Qed.

Lemma untranslatable_files_are_null_rows_witness :
  (exists dims' df fpcol r,
      _eoDataCube__inventory_from_filepaths
        (Some ("/data/unknown.dat" :: Scenario.pol_files)) None
        (Some Scenario.pol_translator)
      = Ok (Some dims', Some df)
      /\ pd.getitem df "filepath" = Ok fpcol
      /\ nth_error fpcol r = Some (VStr "/data/unknown.dat")
      /\ forall d, In d dims' ->
                   exists col, pd.getitem df d = Ok col
                               /\ nth_error col r = Some VNone)
  /\ (exists dc df,
         __init__ Scenario.empty_src (Some Scenario.five_files) None None
                  (Some Scenario.failing_translator) (Some ["time"]) None
         = Ok dc
         /\ inventory dc = Some df
         /\ pd.len df = 5
         /\ option_map (@length string) (dimensions dc) = Some 0).
Proof.
  split.
  - apply (proj1 untranslatable_files_are_null_rows Scenario.pol_translator
                 ("/data/unknown.dat" :: Scenario.pol_files) None "/data/unknown.dat").
    + left. reflexivity.
    + exists (ValueError "not a known file name"). reflexivity.
  - apply (proj2 untranslatable_files_are_null_rows Scenario.empty_src
                 Scenario.failing_translator Scenario.five_files None).
    + reflexivity.
    + intros fp _. exists (ValueError "not a known file name"). reflexivity.
    + intros ft f. exists None. reflexivity.
Defined.

(** ** The module functions *)

Section ModuleFunctions.

Variable open_src : string -> string -> Res (option Dataset).
Variable py_eval : string -> EvalEnv -> Res (option DataFrame).
Variable df_merge : DataFrame -> DataFrame -> option string -> Res DataFrame.

(** The instance has no attribute of the name written on line 739. *)
Lemma getattr_assign_inventory :
  getattr "__assign_inventory" = Raise (AttributeError "__assign_inventory").
Proof. reflexivity. Qed.

Lemma merge_datacubes_raises dcs name :
  exists e, merge_datacubes open_src df_merge dcs name = Raise e.
Proof.
  unfold merge_datacubes.
  destruct dcs as [| dc0 dcs']; [eexists; reflexivity |].
  destruct (merge_loop df_merge name dcs' (inventory dc0)) as [m | e];
    cbn [bind]; [| eexists; reflexivity].
  destruct dcs' as [| dc rest]; [eexists; reflexivity |].
  rewrite getattr_assign_inventory. eexists. reflexivity.
Qed.

Lemma mapM_head_raises {A B : Type} (f : A -> Res B) a l e :
  f a = Raise e -> mapM f (a :: l) = Raise e.
Proof. intros H. simpl. rewrite H. reflexivity. Qed.

Lemma match_dimension_raises dc dcs name in_place :
  exists e, match_dimension open_src py_eval (dc :: dcs) name in_place = Raise e.
Proof.
  unfold match_dimension.
  destruct (gather_values name (dc :: dcs)) as [values | e];
    cbn [bind]; [| eexists; reflexivity].
  destruct (filter_by_dimension_raises open_src py_eval dc
              (map Single (pd.unique values))
              (Some (repeat (Single "==") (length (pd.unique values))))
              name in_place) as [e He].
  exists e. apply mapM_head_raises. exact He.
Qed.

End ModuleFunctions.

(** C6.  [merge_datacubes], and with it [merge], never returns a cube.  Line
    739 asks the instance for the attribute [__assign_inventory] from outside
    the class body, where the method is stored as
    [_eoDataCube__assign_inventory]; the call raises AttributeError when the
    merge of the frames has not raised before.  Merging the polarisation cube
    with itself raises that AttributeError. *)
Theorem merge_datacubes_never_returns :
  (forall open_src df_merge dcs name,
      exists e, merge_datacubes open_src df_merge dcs name = Raise e)
  /\ (forall open_src df_merge self dc_other name,
         exists e, eoDataCube_merge open_src df_merge self dc_other name = Raise e)
  /\ merge_datacubes no_src Scenario.keep_left
       [Scenario.pol_cube; Scenario.pol_cube] None
     = Raise (AttributeError "__assign_inventory")
  /\ eoDataCube_merge no_src Scenario.keep_left Scenario.pol_cube Scenario.vh_cube
       (Some "pol")
     = Raise (AttributeError "__assign_inventory").
Proof.
  split; [| split; [| split]].
  - intros. apply merge_datacubes_raises.
  - intros. apply merge_datacubes_raises.
  - reflexivity.
  - reflexivity.
Qed.

(** C7.  [match_dimension] forms the combined values of the specification and
    then returns no cube: on a non-empty list of cubes the first call of
    [filter_by_dimension] raises.  For the polarisation cube and the cube of
    its VH files the combined values are VV, VH in this order; the call raises
    SyntaxError when [eval] is run as written and ValueError from [pd.concat]
    when the filters are applied as documented. *)
Theorem match_dimension_never_returns :
  (forall open_src py_eval dc dcs name in_place,
      exists e, match_dimension open_src py_eval (dc :: dcs) name in_place = Raise e)
  /\ (forall open_src py_eval self dc_other name in_place,
         exists e,
           eoDataCube_match_dimension open_src py_eval self dc_other name in_place
           = Raise e)
  /\ (values <- gather_values "pol" [Scenario.pol_cube; Scenario.vh_cube] ;;
      Ok (pd.unique values)) = Ok [VStr "VV"; VStr "VH"]
  /\ match_dimension no_src eval_as_written
       [Scenario.pol_cube; Scenario.vh_cube] "pol" false
     = Raise (SyntaxError exact_cmd)
  /\ match_dimension no_src eval_as_documented
       [Scenario.pol_cube; Scenario.vh_cube] "pol" false
     = Raise (ValueError "No objects to concatenate").
Proof.
  split; [| split; [| split; [| split]]].
  - intros. apply match_dimension_raises.
  - intros open_src py_eval self dc_other name in_place.
    unfold eoDataCube_match_dimension.
    destruct (match_dimension_raises open_src py_eval self [dc_other] name in_place)
      as [e He].
    rewrite He. exists e. reflexivity.
  - reflexivity.
  - reflexivity.
  - reflexivity.
Qed.

(** ** clone *)

(** A cube with file paths, a non-empty dimension list, an inventory and a
    grid is cloned field by field. *)
Lemma clone_copies_fields open_src dc f fps d ds df g :
  filepaths dc = Some (f :: fps) ->
  dimensions dc = Some (d :: ds) ->
  inventory dc = Some df ->
  grid dc = Some g ->
  clone open_src dc
  = Ok (mkCube (dir_tree dc) (smart_filename_creator dc) [] (filepaths dc)
               (dimensions dc) (inventory dc) (grid dc)).
Proof.
  intros Hf Hd Hi Hg. unfold clone, __deepcopy__, __init__.
  rewrite Hf, Hd, Hi, Hg. reflexivity.
Qed.

(** C8.  The clone does not always hold the values of the original.  The cube
    of five untranslatable files has the empty dimension list and the columns
    filepath and geometry; [__deepcopy__] hands the empty list to the
    constructor, whose test [if dimensions:] takes it for missing and derives
    the list from the columns, so the clone has the dimension list
    [geometry]. *)
Theorem clone_changes_empty_dimensions :
  forall open_src,
    dimensions Scenario.five_cube = Some []
    /\ clone open_src Scenario.five_cube
       = Ok (set_dimensions Scenario.five_cube (Some ["geometry"])).
Proof. intros open_src. split; reflexivity. Qed.

(** ** add_dimension, filter_by_metadata *)

(** C9.  [add_dimension] in place leaves the dimension list as it was, while
    the inventory gains the column.  The cube of four dated files satisfies
    the invariant; after [add_dimension('value', [1, 2, 3, 4], in_place=True)]
    its dimension list is still [time] and its inventory has the dimension
    columns time and value. *)
Theorem add_dimension_in_place_breaks_invariant :
  (forall open_src self name values,
      match add_dimension open_src self name values true with
      | Ok (_, self') => dimensions self' = dimensions self
      | Raise _ => True
      end)
  /\ dimensions_consistent Scenario.dated_cube = true
  /\ (forall open_src,
         add_dimension open_src Scenario.dated_cube "value"
                       [VInt 1; VInt 2; VInt 3; VInt 4] true
         = Ok (RetSelf, Scenario.dated_cube_with_value))
  /\ dimensions Scenario.dated_cube_with_value = Some ["time"]
  /\ option_map dimension_columns (inventory Scenario.dated_cube_with_value)
     = Some ["time"; "value"]
  /\ dimensions_consistent Scenario.dated_cube_with_value = false.
Proof.
  split; [| repeat split].
  intros open_src self name values. unfold add_dimension.
  destruct (inventory self) as [df |]; [| reflexivity].
  destruct (add_dimension_frame df name values) as [df' | e]; reflexivity.
Qed.

(** C10.  [filter_by_metadata] takes [in_place] and does not use it: called
    with [in_place=False] it does what it does with [in_place=True].  On the
    cube of four dated files, whose files are of no recognised type, the call
    with [in_place=False] returns the receiver itself, whose inventory has
    lost its four rows. *)
Theorem filter_by_metadata_ignores_in_place :
  (forall open_src self metadata,
      filter_by_metadata open_src self metadata false
      = filter_by_metadata open_src self metadata true)
  /\ (forall open_src,
         filter_by_metadata open_src Scenario.dated_cube [("direction", VStr "D")] false
         = Ok (RetSelf, Scenario.dated_cube_emptied))
  /\ option_map pd.len (inventory Scenario.dated_cube) = Some 4
  /\ option_map pd.len (inventory Scenario.dated_cube_emptied) = Some 0.
Proof.
  split; [| split; [| split]]; reflexivity.
Qed.

(** * Further properties of the code *)

(** ** rename_dimensions, add_dimension, __assign_inventory *)

(** X1.  On a cube that has an inventory, [rename_dimensions] with a
    non-empty mapping raises ValueError, in place or not: either the first
    name is not in the dimension list, or [if self.inventory:] asks the frame
    for its truth value. *)
Theorem rename_dimensions_with_inventory_raises :
  forall open_src self df old new rest in_place,
    inventory self = Some df ->
    exists msg,
      rename_dimensions open_src self ((old, new) :: rest) in_place
      = Raise (ValueError msg).
Proof.
  intros open_src self df old new rest in_place Hinv.
  unfold rename_dimensions. rewrite Hinv. cbn [map fst rename_loop].
  destruct (dimensions self) as [[| d ds] |]; cbn [bind];
    try (eexists; reflexivity).
  destruct (index_of old (d :: ds)) as [idx |]; [| eexists; reflexivity].
  cbn [pd.lookup]. rewrite String.eqb_refl. cbn [bind].
  eexists. reflexivity.
Qed.

Lemma rename_dimensions_with_inventory_raises_witness :
  exists msg,
    rename_dimensions no_src Scenario.pol_cube [("pol", "band")] true
    = Raise (ValueError msg).
Proof.
  apply (rename_dimensions_with_inventory_raises no_src Scenario.pol_cube
           _ "pol" "band" [] true eq_refl).
Defined.

(** X2.  [add_dimension] with a list of values whose length is not the number
    of rows raises ValueError, in place or not. *)
Theorem add_dimension_length_mismatch :
  forall open_src self df name values in_place,
    inventory self = Some df ->
    length values <> pd.len df ->
    add_dimension open_src self name values in_place
    = Raise (ValueError "Length of values does not match length of index").
Proof.
  intros open_src self df name values in_place Hinv Hlen.
  unfold add_dimension, add_dimension_frame, pd.GeoSeries. rewrite Hinv.
  apply Nat.eqb_neq in Hlen. rewrite Hlen. reflexivity.
Qed.

Lemma add_dimension_length_mismatch_witness :
  add_dimension no_src Scenario.pol_cube "value" [VInt 1; VInt 2] true
  = Raise (ValueError "Length of values does not match length of index").
Proof.
  apply (add_dimension_length_mismatch no_src Scenario.pol_cube _ "value"
           [VInt 1; VInt 2] true eq_refl).
  simpl. discriminate.
Defined.






(** X4.  Without a directory tree no new cube is built from a frame:
    [from_inventory] raises ValueError on line 56, and so does every call of
    [add_dimension] that is not in place, valid as its values may be. *)
Theorem not_in_place_without_dir_tree_raises :
  forall open_src self df name values,
    dir_tree self = None ->
    inventory self = Some df ->
    length values = pd.len df ->
    from_inventory open_src (Some df) (grid self) (dir_tree self)
    = Raise (ValueError "The truth value of a DataFrame is ambiguous")
    /\ add_dimension open_src self name values false
       = Raise (ValueError "The truth value of a DataFrame is ambiguous").
Proof.
  intros open_src self df name values Htree Hinv Hlen. split.
  - rewrite Htree. reflexivity.
  - unfold add_dimension, add_dimension_frame, pd.GeoSeries.
    rewrite Hinv, Hlen, Nat.eqb_refl. cbn [bind].
    unfold _eoDataCube__assign_inventory. rewrite Htree. reflexivity.
Qed.

Lemma not_in_place_without_dir_tree_raises_witness :
  from_inventory no_src (inventory Scenario.pol_cube) (grid Scenario.pol_cube)
                 (dir_tree Scenario.pol_cube)
  = Raise (ValueError "The truth value of a DataFrame is ambiguous")
  /\ add_dimension no_src Scenario.pol_cube "value"
                   [VInt 1; VInt 2; VInt 3; VInt 4; VInt 5] false
     = Raise (ValueError "The truth value of a DataFrame is ambiguous").
Proof.
  apply (not_in_place_without_dir_tree_raises no_src Scenario.pol_cube _ "value"
           [VInt 1; VInt 2; VInt 3; VInt 4; VInt 5] eq_refl eq_refl eq_refl).
Defined.

(** ** clone *)

(** X5.  A cube with file paths, a non-empty dimension list, an inventory and
    either a grid or a geometry column is cloned field by field, the history
    starting empty. *)
Theorem clone_keeps_fields :
  forall open_src dc f fps d ds df,
    filepaths dc = Some (f :: fps) ->
    dimensions dc = Some (d :: ds) ->
    inventory dc = Some df ->
    (exists g, grid dc = Some g) \/ mem "geometry" (pd.keys df) = true ->
    clone open_src dc
    = Ok (mkCube (dir_tree dc) (smart_filename_creator dc) [] (filepaths dc)
                 (dimensions dc) (inventory dc) (grid dc)).
Proof.
  intros open_src dc f fps d ds df Hf Hd Hi Hg.
  unfold clone, __deepcopy__, __init__. rewrite Hf, Hd, Hi. cbn [truthy bind].
  destruct (grid dc) as [g |]; [reflexivity |].
  destruct Hg as [[g Hg] | Hg]; [discriminate Hg |].
  rewrite Hg. reflexivity.
Qed.

Lemma clone_keeps_fields_witness :
  clone no_src Scenario.pol_cube = Ok Scenario.pol_cube.
Proof.
  apply (clone_keeps_fields no_src Scenario.pol_cube _ _ _ _ _
           eq_refl eq_refl eq_refl).
  right. reflexivity.
Defined.

(** ** filter_files_with_pattern, get_monthly_dcs *)

(** X6.  [filter_files_with_pattern] never filters: on a cube with an
    inventory the test [if self.inventory:] raises ValueError before the
    pattern is compiled, and on a cube without one the method returns [None]
    and leaves the cube as it is. *)
Theorem filter_files_with_pattern_never_filters :
  forall open_src (Regex : Type) (re_compile : string -> Res Regex)
         (re_match : string -> Regex -> Res bool) self pattern full_path in_place,
    (exists df,
        inventory self = Some df
        /\ filter_files_with_pattern open_src Regex re_compile re_match self pattern
                                     full_path in_place
           = Raise (ValueError "The truth value of a DataFrame is ambiguous"))
    \/ (inventory self = None
        /\ filter_files_with_pattern open_src Regex re_compile re_match self pattern
                                     full_path in_place
           = Ok (RetNone, self)).
Proof.
  intros open_src Regex re_compile re_match self pattern full_path in_place.
  unfold filter_files_with_pattern.
  destruct (inventory self) as [df |].
  - left. exists df. split; reflexivity.
  - right. split; reflexivity.
Qed.

(** X7.  [get_monthly_dcs] returns no cube: it loops over the list returned by
    [get_yearly_dcs], which is empty when the call does not raise. *)
Theorem get_monthly_dcs_returns_no_cube :
  forall open_src py_eval self name months,
    get_monthly_dcs open_src py_eval self name months = Ok (RetList [], self)
    \/ exists e, get_monthly_dcs open_src py_eval self name months = Raise e.
Proof.
  intros open_src py_eval self name months. unfold get_monthly_dcs.
  destruct (get_yearly_dcs_cases open_src py_eval self name None) as [H | [e H]];
    rewrite H; cbn [bind].
  - left. reflexivity.
  - right. exists e. reflexivity.
Qed.

(** ** filter_by_metadata, filter_spatially *)



Lemma mask_list_filter {A : Type} (f : A -> bool) (l : list A) :
  pd.mask_list l (map f l) = filter f l.
Proof.
  induction l as [| a l IH]; simpl; [reflexivity |].
  destruct (f a); rewrite IH; reflexivity.
Qed.


Lemma getitem_mem df k col :
  pd.getitem df k = Ok col -> mem k (pd.keys df) = true.
Proof.
  unfold mem, pd.keys. induction df as [| [k0 c] r IH]; simpl; intros H.
  - discriminate H.
  - rewrite (String.eqb_sym k k0). destruct (String.eqb k0 k); [reflexivity |].
    apply IH. exact H.
Qed.

Lemma getitem_map_columns (F : list Value -> list Value) df k col :
  pd.getitem df k = Ok col ->
  pd.getitem (map (fun kc => (fst kc, F (snd kc))) df) k = Ok (F col).
Proof.
  induction df as [| [k0 c] r IH]; simpl; intros H.
  - discriminate H.
  - destruct (String.eqb k0 k); [injection H as <-; reflexivity | apply IH, H].
Qed.

Lemma keys_map_columns (F : list Value -> list Value) (df : DataFrame) :
  pd.keys (map (fun kc => (fst kc, F (snd kc))) df) = pd.keys df.
Proof. unfold pd.keys. rewrite map_map. reflexivity. Qed.






(** X10.  [filter_spatially] in place, on a cube without a grid whose
    inventory has a geometry column, returns the receiver with the rows whose
    geometry intersects the region: the geometry column afterwards is the
    sublist of the intersecting cells, and the columns are the same.  With a
    grid the method returns [None] and filters nothing. *)
Theorem filter_spatially_keeps_intersecting :
  (forall open_src (Roi : Type) (intersects : Value -> Roi -> bool)
          self df geoms tilenames roi sref name,
      grid self = None ->
      inventory self = Some df ->
      pd.getitem df "geometry" = Ok geoms ->
      length geoms = pd.len df ->
      exists df',
        filter_spatially open_src Roi intersects self tilenames (Some roi) sref
                         name true
        = Ok (RetSelf, set_inventory self (Some df'))
        /\ pd.getitem df' "geometry" = Ok (filter (fun g => intersects g roi) geoms)
        /\ pd.keys df' = pd.keys df)
  /\ (forall open_src (Roi : Type) (intersects : Value -> Roi -> bool)
             self g tilenames roi sref name in_place,
         grid self = Some g ->
         filter_spatially open_src Roi intersects self tilenames roi sref name
                          in_place
         = Ok (RetNone, self)).
Proof.
  split.
  - intros open_src Roi intersects self df geoms tilenames roi sref name
           Hgrid Hinv Hgeo Hlen.
    exists (map (fun kc => (fst kc,
                            pd.mask_list (snd kc)
                                         (map (fun g => intersects g roi) geoms))) df).
    split; [| split].
    + unfold filter_spatially. rewrite Hgrid, Hinv, (getitem_mem _ _ _ Hgeo), Hgeo.
      cbn [bind]. unfold pd.select. rewrite length_map, Hlen, Nat.eqb_refl.
      reflexivity.
    + rewrite (getitem_map_columns
                 (fun c => pd.mask_list c (map (fun g => intersects g roi) geoms))
                 df "geometry" geoms Hgeo).
      rewrite mask_list_filter. reflexivity.
    + apply (keys_map_columns
               (fun c => pd.mask_list c (map (fun g => intersects g roi) geoms))).
  - intros open_src Roi intersects self g tilenames roi sref name in_place Hgrid.
    unfold filter_spatially. rewrite Hgrid. destruct roi; reflexivity.
Qed.

Lemma filter_spatially_keeps_intersecting_witness :
  (exists df',
      filter_spatially no_src nat Scenario.same_polygon Scenario.raster_cube
                       None (Some 2) None "tile" true
      = Ok (RetSelf, set_inventory Scenario.raster_cube (Some df'))
      /\ pd.getitem df' "geometry" = Ok [VGeom 2]
      /\ pd.keys df' = ["filepath"; "pol"; "geometry"])
  /\ filter_spatially no_src nat Scenario.same_polygon
       (mkCube None None [] None None None (Some 7)) None (Some 2) None "tile" true
     = Ok (RetNone, mkCube None None [] None None None (Some 7)).
Proof.
  split.
  - apply (proj1 filter_spatially_keeps_intersecting no_src nat
                 Scenario.same_polygon Scenario.raster_cube _ _ None 2 None "tile"
                 eq_refl eq_refl eq_refl eq_refl).
  - apply (proj2 filter_spatially_keeps_intersecting no_src nat
                 Scenario.same_polygon (mkCube None None [] None None None (Some 7))
                 7 None (Some 2) None "tile" true eq_refl).
Defined.

(** ** get_yearly_dcs, get_monthly_dcs: the ranges *)

Lemma timestamp_leb_refl a : timestamp_leb a a = true.
Proof.
  unfold timestamp_leb. rewrite !Z.eqb_refl, Z.leb_refl.
  rewrite !orb_true_r. reflexivity.
Qed.

Lemma timestamp_leb_spec a b :
  timestamp_leb a b = true
  <-> (year a < year b
       \/ (year a = year b
           /\ (month a < month b \/ (month a = month b /\ day a <= day b))))%Z.
Proof.
  unfold timestamp_leb.
  rewrite !orb_true_iff, !andb_true_iff, !orb_true_iff, !andb_true_iff.
  rewrite !Z.ltb_lt, !Z.eqb_eq, Z.leb_le. reflexivity.
Qed.

Lemma timestamp_leb_total a b :
  timestamp_leb a b = false -> timestamp_leb b a = true.
Proof.
  intros H. apply timestamp_leb_spec.
  assert (Hn : ~ (year a < year b
                  \/ (year a = year b
                      /\ (month a < month b
                          \/ (month a = month b /\ day a <= day b))))%Z).
  { intros Hc. apply timestamp_leb_spec in Hc. rewrite H in Hc. discriminate Hc. }
  lia.
Qed.

Lemma timestamp_leb_trans a b c :
  timestamp_leb a b = true -> timestamp_leb b c = true -> timestamp_leb a c = true.
Proof.
  rewrite !timestamp_leb_spec. lia.
Qed.

Lemma fold_min_spec r :
  forall m0,
    let m := fold_left (fun m x => if timestamp_leb m x then m else x) r m0 in
    (m = m0 \/ In m r)
    /\ timestamp_leb m m0 = true
    /\ forall x, In x r -> timestamp_leb m x = true.
Proof.
  induction r as [| x r IH]; intros m0; simpl.
  - split; [left; reflexivity | split; [apply timestamp_leb_refl | intros x []]].
  - destruct (timestamp_leb m0 x) eqn:Hmx.
    + destruct (IH m0) as (H1 & H2 & H3). split; [| split].
      * destruct H1 as [H1 | H1]; [left; exact H1 | right; right; exact H1].
      * exact H2.
      * intros y [<- | Hy]; [| apply H3, Hy].
        apply (timestamp_leb_trans _ m0); assumption.
    + destruct (IH x) as (H1 & H2 & H3). split; [| split].
      * right. destruct H1 as [H1 | H1]; [left; symmetry; exact H1 | right; exact H1].
      * apply (timestamp_leb_trans _ x); [exact H2 |].
        apply timestamp_leb_total. exact Hmx.
      * intros y [<- | Hy]; [exact H2 | apply H3, Hy].
Qed.

Lemma fold_max_spec r :
  forall m0,
    let m := fold_left (fun m x => if timestamp_leb m x then x else m) r m0 in
    (m = m0 \/ In m r)
    /\ timestamp_leb m0 m = true
    /\ forall x, In x r -> timestamp_leb x m = true.
Proof.
  induction r as [| x r IH]; intros m0; simpl.
  - split; [left; reflexivity | split; [apply timestamp_leb_refl | intros x []]].
  - destruct (timestamp_leb m0 x) eqn:Hmx.
    + destruct (IH x) as (H1 & H2 & H3). split; [| split].
      * right. destruct H1 as [H1 | H1]; [left; symmetry; exact H1 | right; exact H1].
      * apply (timestamp_leb_trans _ x); assumption.
      * intros y [<- | Hy]; [exact H2 | apply H3, Hy].
    + destruct (IH m0) as (H1 & H2 & H3). split; [| split].
      * destruct H1 as [H1 | H1]; [left; exact H1 | right; right; exact H1].
      * exact H2.
      * intros y [<- | Hy]; [| apply H3, Hy].
        apply (timestamp_leb_trans _ m0); [| exact H2].
        apply timestamp_leb_total. exact Hmx.
Qed.

(** [min] and [max] of a non-empty list are members of it that bound it. *)
Lemma min_timestamp_spec t r :
  exists m, min_timestamp (t :: r) = Ok m
            /\ In m (t :: r)
            /\ forall x, In x (t :: r) -> timestamp_leb m x = true.
Proof.
  destruct (fold_min_spec r t) as (H1 & H2 & H3).
  eexists. split; [reflexivity | split].
  - destruct H1 as [H1 | H1]; [left; symmetry; exact H1 | right; exact H1].
  - intros x [<- | Hx]; [exact H2 | apply H3, Hx].
Qed.

Lemma max_timestamp_spec t r :
  exists m, max_timestamp (t :: r) = Ok m
            /\ In m (t :: r)
            /\ forall x, In x (t :: r) -> timestamp_leb x m = true.
Proof.
  destruct (fold_max_spec r t) as (H1 & H2 & H3).
  eexists. split; [reflexivity | split].
  - destruct H1 as [H1 | H1]; [left; symmetry; exact H1 | right; exact H1].
  - intros x [<- | Hx]; [exact H2 | apply H3, Hx].
Qed.

(** The dictionary: lookup after an assignment, after an append, and the
    keys. *)
Lemma year_get_set d a l k :
  year_get (year_set d a l) k = if Z.eqb a k then Some l else year_get d k.
Proof.
  induction d as [| [k0 l0] r IH]; simpl.
  - reflexivity.
  - destruct (Z.eqb k0 a) eqn:H0; simpl.
    + apply Z.eqb_eq in H0. subst k0. destruct (Z.eqb a k); reflexivity.
    + rewrite IH. destruct (Z.eqb k0 k) eqn:Hk; [| reflexivity].
      apply Z.eqb_eq in Hk. subst k0. rewrite Z.eqb_sym, H0. reflexivity.
Qed.

Lemma year_get_append d a t k :
  year_get (year_append d a t) k
  = if Z.eqb a k then option_map (fun l => l ++ [t]) (year_get d a)
    else year_get d k.
Proof.
  unfold year_append. destruct (year_get d a) as [l |] eqn:Ha.
  - rewrite year_get_set. reflexivity.
  - destruct (Z.eqb a k) eqn:Hk; [| reflexivity].
    apply Z.eqb_eq in Hk. subst k. exact Ha.
Qed.

Lemma year_get_keys d k :
  year_get d k = None <-> ~ In k (map fst d).
Proof.
  induction d as [| [k0 l0] r IH]; simpl.
  - split; [intros _ [] | reflexivity].
  - destruct (Z.eqb k0 k) eqn:Hk.
    + apply Z.eqb_eq in Hk. split; [discriminate | intros H; exfalso; auto].
    + apply Z.eqb_neq in Hk. rewrite IH. tauto.
Qed.

Lemma keys_year_set d a l :
  map fst (year_set d a l)
  = match year_get d a with
    | Some _ => map fst d
    | None => map fst d ++ [a]
    end.
Proof.
  induction d as [| [k0 l0] r IH]; simpl.
  - reflexivity.
  - destruct (Z.eqb k0 a); simpl; [reflexivity |].
    rewrite IH. destruct (year_get r a); reflexivity.
Qed.

Lemma keys_year_append d a t :
  map fst (year_append d a t) = map fst d.
Proof.
  unfold year_append. destruct (year_get d a) as [l |] eqn:Ha; [| reflexivity].
  rewrite keys_year_set, Ha. reflexivity.
Qed.

Lemma with_attr_app attr k l1 l2 :
  with_attr attr k (l1 ++ l2) = with_attr attr k l1 ++ with_attr attr k l2.
Proof. apply filter_app. Qed.

Lemma grouped_Some attr ts k l :
  grouped attr ts k = Some l -> l = with_attr attr k ts /\ l <> [].
Proof.
  unfold grouped. destruct (with_attr attr k ts) as [| x r]; intros H;
    [discriminate H |].
  injection H as <-. split; [reflexivity | discriminate].
Qed.

Lemma grouped_None attr ts k :
  grouped attr ts k = None -> with_attr attr k ts = [].
Proof.
  unfold grouped. destruct (with_attr attr k ts); [reflexivity | discriminate].
Qed.

(** The loop that gives every attribute met an entry: on a column of time
    stamps it does not raise, and the dictionary groups the time stamps by
    attribute, each key once. *)
Lemma collect_all_by_spec attr ts :
  forall d seen,
    (forall k, year_get d k = grouped attr seen k) ->
    NoDup (map fst d) ->
    exists d',
      collect_all_by attr (map VTime ts) d = Ok d'
      /\ (forall k, year_get d' k = grouped attr (seen ++ ts) k)
      /\ NoDup (map fst d').
Proof.
  induction ts as [| t ts IH]; intros d seen Hd Hnd.
  - exists d. rewrite app_nil_r. repeat split; assumption.
  - cbn [map collect_all_by timestamp_of bind].
    set (d1 := match year_get d (attr t) with
               | Some _ => d
               | None => year_set d (attr t) []
               end).
    destruct (IH (year_append d1 (attr t) t) (seen ++ [t])) as (d' & H1 & H2 & H3).
    + intros k. rewrite year_get_append.
      unfold grouped. rewrite with_attr_app. cbn [with_attr filter].
      destruct (Z.eqb (attr t) k) eqn:Hk.
      * apply Z.eqb_eq in Hk. subst k. unfold d1.
        destruct (year_get d (attr t)) as [l |] eqn:Hl.
        -- rewrite Hl. rewrite Hd in Hl.
           destruct (grouped_Some _ _ _ _ Hl) as [-> Hne]. cbn [option_map].
           fold (with_attr attr (attr t) seen).
           destruct (with_attr attr (attr t) seen); [contradiction Hne; reflexivity |].
           reflexivity.
        -- rewrite year_get_set, Z.eqb_refl. rewrite Hd in Hl.
           fold (with_attr attr (attr t) seen).
           rewrite (grouped_None _ _ _ Hl). reflexivity.
      * rewrite app_nil_r. fold (with_attr attr k seen). fold (grouped attr seen k).
        rewrite <- Hd. unfold d1.
        destruct (year_get d (attr t)); [reflexivity |].
        rewrite year_get_set, Hk. reflexivity.
    + rewrite keys_year_append. unfold d1.
      destruct (year_get d (attr t)) as [l |] eqn:Hl; [exact Hnd |].
      rewrite keys_year_set, Hl. apply year_get_keys in Hl.
      apply NoDup_app; [exact Hnd | repeat constructor; intros [] | ].
      intros x Hx [<- | []]. apply Hl, Hx.
    + exists d'. rewrite <- app_assoc in H2. repeat split; assumption.
Qed.

Lemma grouped_present attr ts y :
  (exists t, In t ts /\ attr t = y) <-> grouped attr ts y <> None.
Proof.
  unfold grouped, with_attr. split.
  - intros (t & Hin & Ht) H.
    assert (Hf : In t (filter (fun t => Z.eqb (attr t) y) ts)).
    { apply filter_In. split; [exact Hin | apply Z.eqb_eq, Ht]. }
    destruct (filter _ ts); [destruct Hf | discriminate H].
  - intros H. destruct (filter (fun t => Z.eqb (attr t) y) ts) as [| t r] eqn:Hf;
      [contradiction H; reflexivity |].
    assert (Hin : In t (filter (fun t => Z.eqb (attr t) y) ts))
      by (rewrite Hf; left; reflexivity).
    apply filter_In in Hin. destruct Hin as [Hin Ht].
    exists t. split; [exact Hin | apply Z.eqb_eq, Ht].
Qed.

(** The range computed for a key whose entry groups the time stamps of that
    attribute. *)
Lemma year_range_spec attr ts d y :
  year_get d y = grouped attr ts y ->
  (exists t, In t ts /\ attr t = y) ->
  exists v, year_range d y = Ok v /\ range_of attr ts y v.
Proof.
  intros Hd Hex. apply grouped_present in Hex.
  destruct (grouped attr ts y) as [l |] eqn:Hg; [| contradiction Hex; reflexivity].
  destruct (grouped_Some _ _ _ _ Hg) as [Hl Hne].
  destruct l as [| x r]; [contradiction Hne; reflexivity |].
  destruct (min_timestamp_spec x r) as (lo & Hlo & Hlo_in & Hlo_le).
  destruct (max_timestamp_spec x r) as (hi & Hhi & Hhi_in & Hhi_le).
  exists (Sequence [VTime lo; VTime hi]). split.
  - unfold year_range. rewrite Hd, Hlo. cbn [bind]. rewrite Hhi. reflexivity.
  - exists lo, hi. rewrite Hl in Hlo_in, Hhi_in.
    apply filter_In in Hlo_in. apply filter_In in Hhi_in.
    destruct Hlo_in as [Hlo1 Hlo2]. destruct Hhi_in as [Hhi1 Hhi2].
    apply Z.eqb_eq in Hlo2. apply Z.eqb_eq in Hhi2.
    repeat split; try assumption.
    + apply Hlo_le. rewrite Hl. apply filter_In. split; [assumption |].
      apply Z.eqb_eq. assumption.
    + apply Hhi_le. rewrite Hl. apply filter_In. split; [assumption |].
      apply Z.eqb_eq. assumption.
Qed.

Lemma mapM_Forall2 {A B : Type} (f : A -> Res B) (P : A -> B -> Prop) (l : list A) :
  (forall a, In a l -> exists b, f a = Ok b /\ P a b) ->
  exists bs, mapM f l = Ok bs /\ Forall2 P l bs.
Proof.
  induction l as [| a l IH]; intros H; simpl.
  - exists []. split; [reflexivity | constructor].
  - destruct (H a (or_introl eq_refl)) as (b & Hb & HP).
    destruct IH as (bs & Hbs & HF); [intros x Hx; apply H; right; exact Hx |].
    exists (b :: bs). rewrite Hb, Hbs. split; [reflexivity | constructor; assumption].
Qed.

Lemma mapM_raises_at {A B : Type} (f : A -> Res B) (l : list A) (a : A) :
  In a l -> (exists e, f a = Raise e) -> exists e, mapM f l = Raise e.
Proof.
  induction l as [| x l IH]; intros Hin Ha; [destruct Hin |].
  simpl. destruct (f x) as [b | e] eqn:Hx; [| exists e; reflexivity].
  destruct Hin as [-> | Hin].
  - destruct Ha as [e He]. rewrite Hx in He. discriminate He.
  - destruct (IH Hin Ha) as [e He]. rewrite He. exists e. reflexivity.
Qed.

Lemma collect_all_by_year col d :
  collect_all col d = collect_all_by year col d.
Proof.
  revert d. induction col as [| v r IH]; intros d; simpl; [reflexivity |].
  destruct (timestamp_of v) as [t | e]; simpl; [apply IH | reflexivity].
Qed.

Lemma collect_requested_by_year wanted col d :
  collect_requested wanted col d = collect_requested_by year wanted col d.
Proof.
  revert d. induction col as [| v r IH]; intros d; simpl; [reflexivity |].
  destruct (timestamp_of v) as [t | e]; simpl; [apply IH | reflexivity].
Qed.

(** The sorted keys of a grouping dictionary and the ranges computed for
    them. *)
Lemma sorted_keys_ranges attr ts d :
  (forall k, year_get d k = grouped attr ts k) ->
  NoDup (map fst d) ->
  let ys := sorted (map fst d) in
  Sorted Z.le ys
  /\ NoDup ys
  /\ (forall y, In y ys <-> exists t, In t ts /\ attr t = y)
  /\ exists values, mapM (year_range d) ys = Ok values
                    /\ Forall2 (range_of attr ts) ys values.
Proof.
  intros Hd Hnd ys.
  assert (Hin : forall y, In y ys <-> exists t, In t ts /\ attr t = y).
  { intros y. unfold ys. rewrite grouped_present, <- Hd. split.
    - intros H Hn. apply year_get_keys in Hn. apply Hn.
      apply (Permutation_in _ (Permutation_sym (sorted_perm _)) H).
    - intros H. apply (Permutation_in _ (sorted_perm _)).
      destruct (in_dec Z.eq_dec y (map fst d)) as [Hy | Hy]; [exact Hy |].
      apply year_get_keys in Hy. contradiction. }
  split; [apply sorted_ascending | split; [| split; [exact Hin |]]].
  - apply (Permutation_NoDup (sorted_perm _) Hnd).
  - apply mapM_Forall2. intros y Hy. apply year_range_spec; [apply Hd |].
    apply Hin, Hy.
Qed.

(** X11.  Without a year list, [get_yearly_dcs] on a column of time stamps
    computes one closed range per calendar year present, the years ascending
    and each once; the range of a year runs from the earliest to the latest
    time stamp of that year, both taken from the column. *)
Theorem yearly_filters_one_range_per_year :
  forall self df name ts,
    inventory self = Some df ->
    pd.getitem df name = Ok (map VTime ts) ->
    exists ys values,
      yearly_filters self name None
      = Ok (values, repeat (Sequence [">="; "<="]) (length ys))
      /\ Sorted Z.le ys
      /\ NoDup ys
      /\ (forall y, In y ys <-> exists t, In t ts /\ year t = y)
      /\ Forall2 (range_of year ts) ys values.
Proof.
  intros self df name ts Hinv Hcol.
  destruct (collect_all_by_spec year ts [] []) as (d & Hd & Hg & Hnd).
  { intros k. reflexivity. }
  { constructor. }
  cbn [app] in Hg.
  destruct (sorted_keys_ranges year ts d Hg Hnd) as (H1 & H2 & H3 & values & H4 & H5).
  exists (sorted (map fst d)), values.
  split; [| repeat split; try assumption; apply H3].
  unfold yearly_filters. rewrite Hinv, Hcol. cbn [bind truthy].
  rewrite collect_all_by_year, Hd. cbn [bind]. rewrite H4. reflexivity.
Qed.

Lemma yearly_filters_one_range_per_year_witness :
  exists ys values,
    yearly_filters Scenario.dated_cube "time" None
    = Ok (values, repeat (Sequence [">="; "<="]) (length ys))
    /\ Sorted Z.le ys
    /\ NoDup ys
    /\ (forall y, In y ys <->
                  exists t, In t [ mkTimestamp 2016 1 1; mkTimestamp 2016 1 15;
                                   mkTimestamp 2016 2 10; mkTimestamp 2017 3 1 ]
                            /\ year t = y)
    /\ Forall2 (range_of year [ mkTimestamp 2016 1 1; mkTimestamp 2016 1 15;
                                mkTimestamp 2016 2 10; mkTimestamp 2017 3 1 ])
               ys values.
Proof.
  apply (yearly_filters_one_range_per_year Scenario.dated_cube _ "time"
           [ mkTimestamp 2016 1 1; mkTimestamp 2016 1 15;
             mkTimestamp 2016 2 10; mkTimestamp 2017 3 1 ] eq_refl eq_refl).
Defined.

Lemma init_dict_empty ys :
  forall d y,
    In y ys \/ year_get d y = Some [] ->
    year_get (fold_left (fun d m => year_set d m []) ys d) y = Some [].
Proof.
  induction ys as [| x ys IH]; intros d y H; simpl.
  - destruct H as [[] | H]. exact H.
  - apply IH. destruct (Z.eq_dec x y) as [-> | Hxy].
    + right. rewrite year_get_set, Z.eqb_refl. reflexivity.
    + destruct H as [[H | H] | H]; [contradiction | left; exact H |].
      right. rewrite year_get_set. apply Z.eqb_neq in Hxy. rewrite Hxy. exact H.
Qed.

Lemma collect_requested_by_keeps_empty attr wanted col :
  forall d d' y,
    collect_requested_by attr wanted col d = Ok d' ->
    year_get d y = Some [] ->
    (forall t, In (VTime t) col -> attr t <> y) ->
    year_get d' y = Some [].
Proof.
  induction col as [| v r IH]; intros d d' y H Hd Hcol; simpl in H.
  - injection H as <-. exact Hd.
  - destruct v as [| n | s | t | g]; simpl in H; try discriminate H.
    apply (IH _ _ y H); [| intros t' Ht'; apply Hcol; right; exact Ht'].
    destruct (existsb (Z.eqb (attr t)) wanted); [| exact Hd].
    rewrite year_get_append.
    assert (Hne : attr t <> y) by (apply Hcol; left; reflexivity).
    apply Z.eqb_neq in Hne. rewrite Hne. exact Hd.
Qed.

Lemma year_range_empty d y :
  year_get d y = Some [] -> exists e, year_range d y = Raise e.
Proof.
  intros H. unfold year_range. rewrite H. eexists. reflexivity.
Qed.

(** The requested keys, one of which no time stamp of the column has: the
    ranges cannot be computed. *)
Lemma requested_ranges_raise attr wanted visited col y :
  In y wanted ->
  In y visited ->
  (forall t, In (VTime t) col -> attr t <> y) ->
  exists e,
    (d <- collect_requested_by attr wanted col
            (fold_left (fun d m => year_set d m []) wanted []) ;;
     mapM (year_range d) visited) = Raise e.
Proof.
  intros Hy Hv Hcol.
  destruct (collect_requested_by attr wanted col _) as [d | e] eqn:Hc;
    cbn [bind]; [| exists e; reflexivity].
  apply (mapM_raises_at _ _ y Hv). apply year_range_empty.
  apply (collect_requested_by_keeps_empty attr wanted col _ d y Hc);
    [| exact Hcol].
  apply init_dict_empty. left. exact Hy.
Qed.

(** X12.  [get_yearly_dcs] with a year list that names a year of which the
    column holds no time stamp raises: [min] is applied to the empty list of
    that year, if nothing has raised before. *)
Theorem yearly_filters_year_without_data_raises :
  forall open_src py_eval self df name col years y,
    inventory self = Some df ->
    pd.getitem df name = Ok col ->
    In y years ->
    (forall t, In (VTime t) col -> year t <> y) ->
    exists e, get_yearly_dcs open_src py_eval self name (Some years) = Raise e.
Proof.
  intros open_src py_eval self df name col years y Hinv Hcol Hy Hno.
  assert (Ht : truthy (Some years) = true)
    by (destruct years; [destruct Hy | reflexivity]).
  destruct (requested_ranges_raise year years years col y Hy Hy Hno) as [e He].
  exists e. unfold get_yearly_dcs, yearly_filters.
  rewrite Hinv, Hcol, Ht. cbn [bind]. rewrite collect_requested_by_year.
  destruct (collect_requested_by year years col _) as [d | e'];
    cbn [bind] in *; [| congruence].
  rewrite He. reflexivity.
Qed.

Lemma yearly_filters_year_without_data_raises_witness :
  exists e,
    get_yearly_dcs no_src eval_as_documented Scenario.dated_cube "time"
                   (Some [2016%Z; 2018%Z]) = Raise e.
Proof.
  apply (yearly_filters_year_without_data_raises no_src eval_as_documented
           Scenario.dated_cube _ "time" _ [2016%Z; 2018%Z] 2018%Z eq_refl eq_refl).
  - right. left. reflexivity.
  - intros t [H | [H | [H | [H | []]]]]; injection H as <-; discriminate.
Defined.

(** X13.  The loop of [get_monthly_dcs], started without a month list, takes
    the months found in the first yearly cube for the months of every later
    one: when the second cube holds no time stamp of one of these months, the
    loop raises ([min] of the empty list of that month, if nothing has raised
    before). *)
Theorem monthly_loop_reuses_first_months :
  forall open_src py_eval self name y1 y2 rest df1 df2 ts1 col2 m acc,
    inventory y1 = Some df1 ->
    pd.getitem df1 name = Ok (map VTime ts1) ->
    inventory y2 = Some df2 ->
    pd.getitem df2 name = Ok col2 ->
    (exists t, In t ts1 /\ month t = m) ->
    (forall t, In (VTime t) col2 -> month t <> m) ->
    exists e,
      monthly_loop open_src py_eval self name (y1 :: y2 :: rest) None false acc
      = Raise e.
Proof.
  intros open_src py_eval self name y1 y2 rest df1 df2 ts1 col2 m acc
         Hi1 Hc1 Hi2 Hc2 Hm Hno.
  destruct (collect_all_by_spec month ts1 [] []) as (d1 & Hd1 & Hg & Hnd).
  { intros k. reflexivity. }
  { constructor. }
  cbn [app] in Hg.
  destruct (sorted_keys_ranges month ts1 d1 Hg Hnd)
    as (_ & _ & Hin & values & Hvals & _).
  set (ms := sorted (map fst d1)) in *.
  assert (Hms : In m ms) by (apply Hin, Hm).
  cbn [monthly_loop]. rewrite Hi1, Hc1. cbn [bind truthy].
  rewrite Hd1. cbn [bind]. fold ms. rewrite Hvals. cbn [bind].
  destruct (split_by_dimension_cases open_src py_eval self values
              (Some (repeat (Sequence [">="; "<="]) (length ms))) name)
    as [Hs | [e Hs]]; rewrite Hs; cbn [bind]; [| exists e; reflexivity].
  rewrite Hi2, Hc2. cbn [bind].
  change (match ms with [] => false | _ :: _ => true end) with (truthy (Some ms)).
  assert (Ht : truthy (Some ms) = true)
    by (destruct ms; [destruct Hms | reflexivity]).
  rewrite Ht.
  assert (Hms' : In m (sorted ms))
    by (apply (Permutation_in _ (sorted_perm _) Hms)).
  destruct (requested_ranges_raise month ms (sorted ms) col2 m Hms Hms' Hno)
    as [e He].
  exists e.
  destruct (collect_requested_by month ms col2 _) as [d2 | e2];
    cbn [bind] in *; [| congruence].
  rewrite He. reflexivity.
Qed.

Lemma monthly_loop_reuses_first_months_witness :
  exists e,
    monthly_loop no_src eval_as_documented Scenario.dated_cube "time"
      [ set_inventory Scenario.dated_cube
          (Some [("time", [Scenario.date 2016 1 1; Scenario.date 2016 2 10])]);
        set_inventory Scenario.dated_cube
          (Some [("time", [Scenario.date 2017 3 1])]) ]
      None false []
    = Raise e.
Proof.
  apply (monthly_loop_reuses_first_months no_src eval_as_documented
           Scenario.dated_cube "time"
           (set_inventory Scenario.dated_cube
              (Some [("time", [Scenario.date 2016 1 1; Scenario.date 2016 2 10])]))
           (set_inventory Scenario.dated_cube
              (Some [("time", [Scenario.date 2017 3 1])]))
           [] _ _
           [mkTimestamp 2016 1 1; mkTimestamp 2016 2 10] _ 1%Z []
           eq_refl eq_refl eq_refl eq_refl).
  - exists (mkTimestamp 2016 1 1). split; [left; reflexivity | reflexivity].
  - intros t [H | []]. injection H as <-. discriminate.
Defined.

(** ** __inventory_from_filepaths: the columns and the order of the rows *)

Lemma setdefault_append_keys_within (dims : list string) key value inv :
  key = "filepath" \/ In key dims ->
  Forall (fun kc : string * list Value => fst kc = "filepath" \/ In (fst kc) dims) inv ->
  Forall (fun kc : string * list Value => fst kc = "filepath" \/ In (fst kc) dims)
         (setdefault_append key value inv).
Proof.
  intros Hkey H. induction H as [| [k c] r Hk Hr IH]; simpl.
  - constructor; [exact Hkey | constructor].
  - destruct (String.eqb k key); constructor; assumption.
Qed.

Lemma mem_In s l : mem s l = true -> In s l.
Proof.
  unfold mem. intros H. apply existsb_exists in H. destruct H as (x & Hx & E).
  apply String.eqb_eq in E. subst x. exact Hx.
Qed.

Lemma add_fields_keys_within d ds fields inv :
  Forall (fun kc : string * list Value => fst kc = "filepath" \/ In (fst kc) (d :: ds)) inv ->
  Forall (fun kc : string * list Value => fst kc = "filepath" \/ In (fst kc) (d :: ds))
         (add_fields (Some (d :: ds)) fields inv).
Proof.
  revert inv. induction fields as [| [key value] rest IH]; intros inv H.
  - exact H.
  - cbn [add_fields truthy]. apply IH.
    destruct (mem key (d :: ds)) eqn:Hm; [| exact H].
    apply setdefault_append_keys_within; [right; apply mem_In, Hm | exact H].
Qed.

Lemma translate_filepaths_keys_within create d ds fps :
  forall inv untrans inv1 untrans1,
    Forall (fun kc : string * list Value => fst kc = "filepath" \/ In (fst kc) (d :: ds)) inv ->
    translate_filepaths create (Some (d :: ds)) fps inv untrans = (inv1, untrans1) ->
    Forall (fun kc : string * list Value => fst kc = "filepath" \/ In (fst kc) (d :: ds)) inv1.
Proof.
  induction fps as [| fp rest IH]; intros inv untrans inv1 untrans1 Hinv H;
    simpl in H.
  - injection H as <- _. exact Hinv.
  - destruct (create (os_path.basename fp)) as [fields | e].
    + apply IH in H; [exact H |].
      apply add_fields_keys_within, setdefault_append_keys_within;
        [left; reflexivity | exact Hinv].
    + apply IH in H; [exact H | exact Hinv].
Qed.

(** The second loop does not raise on a dictionary whose first key is the file
    path: the file paths are appended and the keys stay. *)
Lemma add_all_untranslated_total us c (rest : list (string * pd.Col)) :
  Forall (fun kc => String.eqb (fst kc) "filepath" = false) rest ->
  exists rest',
    add_all_untranslated us (("filepath", pd.Values c) :: rest)
    = Ok (("filepath", pd.Values (c ++ map VStr us)) :: rest')
    /\ map fst rest' = map fst rest.
Proof.
  intros Hrest. destruct us as [| u us].
  - exists rest. simpl. rewrite app_nil_r. split; reflexivity.
  - exists (none_columns rest). split.
    + apply add_all_untranslated_spec. exact Hrest.
    + unfold none_columns. rewrite map_map. reflexivity.
Qed.

(** The frame constructor either refuses the columns with a ValueError or
    keeps every key, every list as it is. *)
Lemma GeoDataFrame_cases data :
  (exists msg, pd.GeoDataFrame data = Raise (ValueError msg))
  \/ exists n,
      pd.GeoDataFrame data
      = Ok (map (fun kc => (fst kc, match snd kc with
                                    | pd.Values l => l
                                    | pd.NoneCol => repeat VNone n
                                    end)) data).
Proof.
  unfold pd.GeoDataFrame. destruct (pd.list_lengths data) as [| n ns].
  - left. eexists. reflexivity.
  - destruct (forallb (Nat.eqb n) ns).
    + right. exists n. reflexivity.
    + left. eexists. reflexivity.
Qed.

(** What [__inventory_from_filepaths] does on a non-empty list of files, given
    the dictionary and the untranslated files the first loop ends with. *)
Lemma inventory_from_filepaths_cases create dims f fps c rest untrans :
  translate_filepaths create dims (f :: fps) [("filepath", [])] []
  = (("filepath", c) :: rest, untrans) ->
  Forall (fun kc => String.eqb (fst kc) "filepath" = false) rest ->
  (exists msg,
      _eoDataCube__inventory_from_filepaths (Some (f :: fps)) dims (Some create)
      = Raise (ValueError msg))
  \/ exists df,
      _eoDataCube__inventory_from_filepaths (Some (f :: fps)) dims (Some create)
      = Ok (Some (map fst rest), Some df)
      /\ pd.keys df = "filepath" :: map fst rest
      /\ pd.getitem df "filepath" = Ok (c ++ map VStr untrans).
Proof.
  intros Htr Hrest. unfold _eoDataCube__inventory_from_filepaths.
  cbn [truthy]. rewrite Htr. cbn [map fst snd].
  destruct (add_all_untranslated_total untrans c
              (map (fun kc => (fst kc, pd.Values (snd kc))) rest))
    as (rest' & H2 & Hkeys).
  { apply values_columns_filepath. exact Hrest. }
  rewrite H2. cbn [bind].
  destruct (GeoDataFrame_cases (("filepath", pd.Values (c ++ map VStr untrans)) :: rest'))
    as [[msg Hg] | [n Hg]]; rewrite Hg; cbn [bind].
  - left. exists msg. reflexivity.
  - right.
    exists (("filepath", c ++ map VStr untrans)
              :: map (fun kc : string * pd.Col =>
                        (fst kc, match snd kc with
                                 | pd.Values l => l
                                 | pd.NoneCol => repeat VNone n
                                 end)) rest').
    assert (Hk : map fst rest' = map fst rest)
      by (rewrite Hkeys, map_map; reflexivity).
    split; [| split].
    + cbn [map fst snd remove_first]. rewrite String.eqb_refl, Hk. reflexivity.
    + unfold pd.keys. cbn [map fst]. f_equal. rewrite map_map, <- Hk.
      apply map_ext. intros [k x]. reflexivity.
    + cbn [pd.getitem]. rewrite String.eqb_refl. reflexivity.
Qed.

(** X14.  With a non-empty list of requested dimensions,
    [__inventory_from_filepaths] on a non-empty list of files either raises
    ValueError (the frame constructor refusing columns of unequal length) or
    returns an inventory whose columns are the file path followed by the new
    dimension list, every dimension of which is a requested one. *)
Theorem requested_dimensions_bound_the_columns :
  forall (create : Translator) f fps d ds,
    (exists msg,
        _eoDataCube__inventory_from_filepaths (Some (f :: fps)) (Some (d :: ds))
                                              (Some create)
        = Raise (ValueError msg))
    \/ exists dims' df,
        _eoDataCube__inventory_from_filepaths (Some (f :: fps)) (Some (d :: ds))
                                              (Some create)
        = Ok (Some dims', Some df)
        /\ pd.keys df = "filepath" :: dims'
        /\ incl dims' (d :: ds).
Proof.
  intros create f fps d ds.
  destruct (translate_filepaths create (Some (d :: ds)) (f :: fps)
                                [("filepath", [])] []) as [inv1 untrans] eqn:Htr.
  destruct (translate_filepaths_spec create _ _ _ _ _ _
              (ex_intro _ [] (ex_intro _ [] (conj eq_refl (Forall_nil _)))) Htr)
    as ((c & rest & -> & Hrest) & _ & _).
  assert (Hinit : Forall (fun kc : string * list Value =>
                            fst kc = "filepath" \/ In (fst kc) (d :: ds))
                         [("filepath", [])])
    by (constructor; [left; reflexivity | constructor]).
  assert (Hwithin := translate_filepaths_keys_within create d ds (f :: fps) _ _ _ _
                       Hinit Htr).
  destruct (inventory_from_filepaths_cases create _ f fps c rest untrans Htr Hrest)
    as [H | (df & H1 & H2 & _)]; [left; exact H | right].
  exists (map fst rest), df. split; [exact H1 | split; [exact H2 |]].
  intros k Hk. apply in_map_iff in Hk. destruct Hk as ([k' x] & <- & Hin).
  inversion Hwithin as [| ? ? _ Htail]. subst.
  rewrite Forall_forall in Htail, Hrest.
  destruct (Htail _ Hin) as [Hfp | Hd]; [| exact Hd].
  specialize (Hrest _ Hin). cbn [fst] in *. rewrite Hfp in Hrest. discriminate Hrest.
Qed.

Lemma requested_dimensions_bound_the_columns_witness :
  ((exists msg,
       _eoDataCube__inventory_from_filepaths (Some Scenario.dated_files)
         (Some ["time"; "pol"]) (Some Scenario.dated_translator)
       = Raise (ValueError msg))
   \/ exists dims' df,
       _eoDataCube__inventory_from_filepaths (Some Scenario.dated_files)
         (Some ["time"; "pol"]) (Some Scenario.dated_translator)
       = Ok (Some dims', Some df)
       /\ pd.keys df = "filepath" :: dims'
       /\ incl dims' ["time"; "pol"])
  /\ (r <- _eoDataCube__inventory_from_filepaths (Some Scenario.dated_files)
             (Some ["time"; "pol"]) (Some Scenario.dated_translator) ;;
      Ok (fst r, option_map pd.keys (snd r)))
     = Ok (Some ["time"], Some ["filepath"; "time"]).
Proof.
  split; [| reflexivity].
  apply (requested_dimensions_bound_the_columns Scenario.dated_translator
           "/data/D20160101_SIG0.dat"
           [ "/data/D20160115_SIG0.dat"; "/data/D20160210_SIG0.dat";
             "/data/D20170301_SIG0.dat" ] "time" ["pol"]).
Defined.

Lemma setdefault_append_below_head key value c rest :
  key <> "filepath" ->
  setdefault_append key value (("filepath", c) :: rest)
  = ("filepath", c) :: setdefault_append key value rest.
Proof.
  intros H. cbn [setdefault_append].
  destruct (String.eqb "filepath" key) eqn:E; [| reflexivity].
  apply String.eqb_eq in E. congruence.
Qed.

Lemma add_fields_below_head dims fields :
  ~ In "filepath" (map fst fields) ->
  forall c rest,
    exists rest', add_fields dims fields (("filepath", c) :: rest)
                  = ("filepath", c) :: rest'.
Proof.
  induction fields as [| [key value] more IH]; intros Hno c rest.
  - exists rest. reflexivity.
  - cbn [add_fields].
    assert (Hkey : key <> "filepath") by (intros ->; apply Hno; left; reflexivity).
    assert (Hmore : ~ In "filepath" (map fst more))
      by (intros H; apply Hno; right; exact H).
    destruct (truthy dims); [destruct (mem key _) |];
      try rewrite (setdefault_append_below_head _ _ _ _ Hkey); apply (IH Hmore).
Qed.

(** The first loop appends the translated files to the file path column in
    their order and the others to [untrans_filepaths] in theirs. *)
Lemma translate_filepaths_order create dims fps :
  (forall fp fields, In fp fps -> create (os_path.basename fp) = Ok fields ->
                     ~ In "filepath" (map fst fields)) ->
  forall c rest untrans,
    exists rest',
      translate_filepaths create dims fps (("filepath", c) :: rest) untrans
      = (("filepath", c ++ map VStr (filter (translated create) fps)) :: rest',
         untrans ++ filter (fun fp => negb (translated create fp)) fps).
Proof.
  induction fps as [| fp fps IH]; intros Hno c rest untrans.
  - exists rest. simpl. rewrite !app_nil_r. reflexivity.
  - cbn [translate_filepaths filter].
    destruct (create (os_path.basename fp)) as [fields | e] eqn:Hc.
    + assert (Ht : translated create fp = true)
        by (unfold translated; rewrite Hc; reflexivity).
      rewrite Ht. cbn [negb].
      cbn [setdefault_append]. rewrite String.eqb_refl.
      destruct (add_fields_below_head dims fields
                  (Hno fp fields (or_introl eq_refl) Hc) (c ++ [VStr fp]) rest)
        as [rest1 ->].
      destruct (IH (fun x fs Hx => Hno x fs (or_intror Hx)) (c ++ [VStr fp])
                   rest1 untrans) as [rest' ->].
      exists rest'. cbn [map]. rewrite <- app_assoc. reflexivity.
    + assert (Ht : translated create fp = false)
        by (unfold translated; rewrite Hc; reflexivity).
      rewrite Ht. cbn [negb].
      destruct (IH (fun x fs Hx => Hno x fs (or_intror Hx)) c rest
                   (untrans ++ [fp])) as [rest' ->].
      exists rest'. rewrite <- app_assoc. reflexivity.
Qed.

(** X15.  When no translated file name has a field called filepath,
    [__inventory_from_filepaths] on a non-empty list of files either raises
    ValueError or returns an inventory whose file path column lists the
    translated files in their order, followed by the untranslated files in
    theirs. *)
Theorem translated_rows_come_first :
  forall (create : Translator) f fps dims,
    (forall fp fields, In fp (f :: fps) -> create (os_path.basename fp) = Ok fields ->
                       ~ In "filepath" (map fst fields)) ->
    (exists msg,
        _eoDataCube__inventory_from_filepaths (Some (f :: fps)) dims (Some create)
        = Raise (ValueError msg))
    \/ exists dims' df,
        _eoDataCube__inventory_from_filepaths (Some (f :: fps)) dims (Some create)
        = Ok (Some dims', Some df)
        /\ pd.getitem df "filepath"
           = Ok (map VStr (filter (translated create) (f :: fps)
                           ++ filter (fun fp => negb (translated create fp)) (f :: fps))).
Proof.
  intros create f fps dims Hno.
  destruct (translate_filepaths_order create dims (f :: fps) Hno [] [] [])
    as [rest Htr].
  cbn [app] in Htr.
  assert (Hrest : Forall (fun kc : string * list Value =>
                            String.eqb (fst kc) "filepath" = false) rest).
  { destruct (translate_filepaths_spec create dims (f :: fps) _ _ _ _
                (ex_intro _ [] (ex_intro _ [] (conj eq_refl (Forall_nil _)))) Htr)
      as ((c' & rest' & E & H) & _ & _).
    injection E as _ <-. exact H. }
  destruct (inventory_from_filepaths_cases create dims f fps _ rest _ Htr Hrest)
    as [H | (df & H1 & _ & H3)]; [left; exact H | right].
  exists (map fst rest), df. split; [exact H1 |].
  rewrite H3, map_app. reflexivity.
Qed.

Lemma translated_rows_come_first_witness :
  ((exists msg,
       _eoDataCube__inventory_from_filepaths
         (Some ("/data/unknown.dat" :: Scenario.pol_files)) None
         (Some Scenario.pol_translator)
       = Raise (ValueError msg))
   \/ exists dims' df,
       _eoDataCube__inventory_from_filepaths
         (Some ("/data/unknown.dat" :: Scenario.pol_files)) None
         (Some Scenario.pol_translator)
       = Ok (Some dims', Some df)
       /\ pd.getitem df "filepath"
          = Ok (map VStr (Scenario.pol_files ++ ["/data/unknown.dat"])))
  /\ _eoDataCube__inventory_from_filepaths
       (Some ("/data/unknown.dat" :: Scenario.pol_files)) None
       (Some Scenario.pol_translator)
     = Ok (Some ["pol"],
           Some [ ("filepath", map VStr (Scenario.pol_files ++ ["/data/unknown.dat"]));
                  ("pol", [VNone; VNone; VNone; VNone; VNone; VNone]) ]).
Proof.
  split; [| reflexivity].
  apply (translated_rows_come_first Scenario.pol_translator "/data/unknown.dat"
           Scenario.pol_files None).
  intros fp fields Hin Hc Hf.
  destruct Hin as [<- | [<- | [<- | [<- | [<- | [<- | []]]]]]];
    try discriminate Hc; injection Hc as <-;
    destruct Hf as [Hf | []]; discriminate Hf.
Defined.

(** ** Missing dimensions, missing expressions, ill-formed first filter *)

Lemma getitem_missing df name :
  mem name (pd.keys df) = false -> pd.getitem df name = Raise (KeyError name).
Proof.
  unfold mem, pd.keys. induction df as [| [k c] r IH]; simpl; intros H.
  - reflexivity.
  - rewrite (String.eqb_sym name k) in H.
    destruct (String.eqb k name); [discriminate H | apply IH, H].
Qed.

(** X16.  For a dimension that is no column of the inventory,
    [get_yearly_dcs], [get_monthly_dcs] and [match_dimension] raise KeyError
    with the name of the dimension, with or without a year list, whatever
    [eval] does. *)
Theorem missing_dimension_raises_KeyError :
  forall open_src py_eval self df name years months dcs in_place,
    inventory self = Some df ->
    mem name (pd.keys df) = false ->
    get_yearly_dcs open_src py_eval self name years = Raise (KeyError name)
    /\ get_monthly_dcs open_src py_eval self name months = Raise (KeyError name)
    /\ match_dimension open_src py_eval (self :: dcs) name in_place
       = Raise (KeyError name).
Proof.
  intros open_src py_eval self df name years months dcs in_place Hinv Hmem.
  assert (Hy : forall ys,
             get_yearly_dcs open_src py_eval self name ys = Raise (KeyError name)).
  { intros ys. unfold get_yearly_dcs, yearly_filters.
    rewrite Hinv, (getitem_missing _ _ Hmem). reflexivity. }
  split; [apply Hy | split].
  - unfold get_monthly_dcs. rewrite Hy. reflexivity.
  - unfold match_dimension. cbn [gather_values].
    rewrite Hinv, (getitem_missing _ _ Hmem). reflexivity.
Qed.

Lemma missing_dimension_raises_KeyError_witness :
  get_yearly_dcs no_src eval_as_documented Scenario.pol_cube "time" None
  = Raise (KeyError "time")
  /\ get_monthly_dcs no_src eval_as_documented Scenario.pol_cube "time" None
     = Raise (KeyError "time")
  /\ match_dimension no_src eval_as_documented
       [Scenario.pol_cube; Scenario.dated_cube] "time" false
     = Raise (KeyError "time").
Proof.
  apply (missing_dimension_raises_KeyError no_src eval_as_documented
           Scenario.pol_cube _ "time" None None [Scenario.dated_cube] false
           eq_refl eq_refl).
Defined.

(** X17.  [filter_by_dimension] and [split_by_dimension] called without
    expressions (the default, [None]) raise TypeError on every non-empty list
    of values, before [eval] is reached: [expressions[i]] subscripts [None]. *)
Theorem filter_without_expressions_raises :
  forall open_src py_eval self value values name in_place,
    filter_by_dimension open_src py_eval self (value :: values) None name in_place
    = Raise (TypeError "'NoneType' object is not subscriptable")
    /\ split_by_dimension open_src py_eval self (value :: values) None name
       = Raise (TypeError "'NoneType' object is not subscriptable").
Proof.
  intros. split; reflexivity.
Qed.

(** X18.  When the first value and the first expression are not well formed
    together, the filter call raises the exception of line 627 with the two
    lengths, whatever the later filters are and whatever [eval] does. *)
Theorem ill_formed_first_filter_raises_length_exception :
  forall open_src py_eval self value values expression expressions name split
         in_place,
    well_formed (value, expression) = false ->
    _eoDataCube__filter_by_dimension open_src py_eval self (value :: values)
      (Some (expression :: expressions)) name split in_place
    = Raise (Exception_length (length (as_list value))
                              (length (as_list expression))).
Proof.
  intros open_src py_eval self value values expression expressions name split0
         in_place Hwf.
  unfold well_formed in Hwf. cbn [fst snd] in Hwf.
  apply orb_false_iff in Hwf. destruct Hwf as [H1 H2].
  unfold _eoDataCube__filter_by_dimension.
  cbn [filter_loop nth_error bind]. rewrite H1, H2. reflexivity.
Qed.

Lemma ill_formed_first_filter_raises_length_exception_witness :
  _eoDataCube__filter_by_dimension no_src eval_as_documented Scenario.pol_cube
    [Sequence [VStr "VV"; VStr "VH"]] (Some [Single "=="]) "pol" false false
  = Raise (Exception_length 2 1).
Proof.
  apply (ill_formed_first_filter_raises_length_exception no_src eval_as_documented
           Scenario.pol_cube (Sequence [VStr "VV"; VStr "VH"]) [] (Single "==") []
           "pol" false false eq_refl).
Defined.
